(** * GEOMATCH // TERMINAL

    A shallow embedding of the dashboard state container
    ([src/app/page.tsx], and the revision of it in [src/unnamed/part_000])
    and of the request forwarder ([src/app/api/v1/query/route.ts]).

    The development is organised as the repository is:
    - [Js]      the fragment of JavaScript the handlers rely on: nullable
                values, [any]-typed JSON values with truthiness and string
                conversion, thrown values, and [String.prototype.replace]
                with a regular expression that is a sequence of atoms;
    - [Model]   the interfaces [GeomatchResult], [GeomatchResponse], the
                [useState] cells of the component and the handler monad;
    - [Route]   the [POST] handler of the forwarding endpoint, with
                [NextResponse.json] and the reading of the forwarded URL;
    - [Page]    the handlers and the JSX conditionals of [page.tsx];
    - [Part000] the handlers and the left pane of [part_000];
    - [PageView] the header, the effect, the preview and the result list;
    - [Spec], [Terms] the vocabulary of the statements, and sample data.

    The properties follow the modules: the panorama identifier, the
    change of image, the forwarder, the dashboard after a response, the
    guards of a submission, and the rendering of missing keys. *)

From Stdlib Require Import ZArith String Ascii List Bool Lia.
From Stdlib Require Import Numbers.DecimalString.
From Stdlib Require Import Floats.PrimFloat.
Import ListNotations.

Local Open Scope string_scope.

(* ====================================================================== *)
(** ** JavaScript values                                                    *)
(* ====================================================================== *)

Module Js.

(** [number] is an IEEE 754 binary64, as in the language. *)
Definition number : Type := float.

(** [!!x] for a number: zero (of either sign) and NaN are falsy. *)
Definition truthyNumber (x : number) : bool :=
  negb (PrimFloat.eqb x 0%float || PrimFloat.is_nan x).

(** [!!s] for a string: only the empty string is falsy. *)
Definition truthyString (s : string) : bool :=
  match s with
  | EmptyString => false
  | String _ _ => true
  end.

(** A value of static type [T | null] that may also be [undefined] at run
    time (an out-of-range array read, an optional chain). *)
Inductive Nullable (A : Type) : Type :=
| Null
| Undefined
| Value (a : A).
Arguments Null {A}.
Arguments Undefined {A}.
Arguments Value {A} a.

Definition truthy {A} (v : Nullable A) : bool :=
  match v with
  | Value _ => true
  | Null | Undefined => false
  end.

(** [arr[i]]: reading past the end of an array yields [undefined]. *)
Definition index {A} (arr : list A) (i : nat) : Nullable A :=
  match nth_error arr i with
  | Some a => Value a
  | None => Undefined
  end.

(** [a || b] where [a] is [string | null] (or [string | undefined]) and [b]
    a string: [null] and the empty string both fall through to [b]. *)
Definition orString (a : option string) (b : string) : string :=
  match a with
  | Some s => if truthyString s then s else b
  | None => b
  end.

(** A template literal hole holding an integral number, as in
    [`Error: ${response.status}`]. *)
Definition Z_to_string (z : Z) : string := NilZero.string_of_int (Z.to_int z).

(** *** Values of type [any]: what [response.json()] resolves to. *)

#[local] Set Warnings "-register-all".
Inductive JsValue : Type :=
| JUndefined
| JNull
| JBool (b : bool)
| JNumber (x : number)
| JString (s : string)
| JArray (elems : list JsValue)
| JObject (props : list (string * JsValue)).

Definition truthyValue (v : JsValue) : bool :=
  match v with
  | JUndefined | JNull => false
  | JBool b => b
  | JNumber x => truthyNumber x
  | JString s => truthyString s
  | JArray _ | JObject _ => true
  end.

(** [a || b] on values. *)
Definition orValue (a b : JsValue) : JsValue :=
  if truthyValue a then a else b.

(** Own-property lookup in a parsed object. *)
Fixpoint lookup (props : list (string * JsValue)) (key : string) : JsValue :=
  match props with
  | [] => JUndefined
  | (k, v) :: rest => if String.eqb k key then v else lookup rest key
  end.

(** *** Thrown values and rejected promises. *)

Inductive JsThrown : Type :=
| ErrorObject (message : string)   (* [instanceof Error], with its [message] *)
| NonError.                        (* anything else that was thrown *)

(** The outcome of an expression that may throw, or of an awaited promise. *)
Definition Exc (A : Type) : Type := (JsThrown + A)%type.

(** A [File] picked in the browser. *)
Record File : Type := {
  file_name : string;
  file_type : string;
  file_bytes : list Byte.byte
}.

(** What the engine and the browser supply and the repository does not
    define: [Number.prototype.toString], the message of the [TypeError]
    raised by a property read on [null] or [undefined],
    [URL.createObjectURL], and the message of the [TypeError] raised when
    an object cannot be converted to a primitive value. *)
Record Engine : Type := {
  numberToString : number -> string;
  nullReadMessage : string;
  createObjectURL : File -> string;
  toPrimitiveMessage : string
}.

(** Whether a parsed object has an own property of that name. *)
Fixpoint hasOwn (props : list (string * JsValue)) (key : string) : bool :=
  match props with
  | [] => false
  | (k, _) :: rest => String.eqb k key || hasOwn rest key
  end.

Section WithEngine.
Variable engine : Engine.

(** The abstract operation ToString, applied by [new Error(message)]. An
    array is joined with commas, [null] and [undefined] elements giving
    the empty string. A parsed object gives [[object Object]] through
    [Object.prototype.toString], unless it has an own [toString]
    property: that property is a JSON value, not a function, the
    inherited [valueOf] returns the object itself, and the conversion
    throws a [TypeError]. *)
Fixpoint toString (v : JsValue) : Exc string :=
  match v with
  | JUndefined => inr "undefined"
  | JNull => inr "null"
  | JBool true => inr "true"
  | JBool false => inr "false"
  | JNumber x => inr (numberToString engine x)
  | JString s => inr s
  | JArray elems =>
      (fix join (l : list JsValue) : Exc string :=
         match l with
         | [] => inr ""
         | e :: rest =>
             match (match e with
                    | JUndefined | JNull => inr ""
                    | _ => toString e
                    end) with
             | inl error => inl error
             | inr first =>
                 match rest with
                 | [] => inr first
                 | _ :: _ =>
                     match join rest with
                     | inl error => inl error
                     | inr others => inr (first ++ "," ++ others)
                     end
                 end
             end
         end) elems
  | JObject props =>
      if hasOwn props "toString"
      then inl (ErrorObject (toPrimitiveMessage engine))
      else inr "[object Object]"
  end.

(** [new Error(message)]: the [Error] whose message is the argument
    converted to a string (the empty string for [undefined]), or what
    that conversion throws. Either way it is what
    [throw new Error(message)] throws. *)
Definition newError (message : JsValue) : JsThrown :=
  match message with
  | JUndefined => ErrorObject ""
  | _ =>
      match toString message with
      | inr text => ErrorObject text
      | inl error => error
      end
  end.

(** [errData.detail]: a [TypeError] on [null] and [undefined], the own
    property of an object, and [undefined] on every other value (no
    primitive wrapper and no array has a [detail] property). *)
Definition get_detail (errData : JsValue) : Exc JsValue :=
  match errData with
  | JUndefined | JNull => inl (ErrorObject (nullReadMessage engine))
  | JObject props => inr (lookup props "detail")
  | JBool _ | JNumber _ | JString _ | JArray _ => inr JUndefined
  end.
End WithEngine.

(** *** [String.prototype.replace] with a regular expression.

    The only expression the repository uses is [/_[0-9]$/]: a sequence of
    atoms, without flags. A string is read as its sequence of code units;
    the atoms of the expression are ASCII, and no unit of a non-ASCII
    character equals an ASCII one. *)

Inductive Atom : Type :=
| Char (c : ascii)          (* a literal character *)
| Class (lo hi : ascii)     (* a character class [lo-hi] *)
| EndOfInput.               (* the assertion [$], without the [m] flag *)

Definition Pattern : Type := list Atom.

Definition inClass (lo hi c : ascii) : bool :=
  (nat_of_ascii lo <=? nat_of_ascii c)%nat && (nat_of_ascii c <=? nat_of_ascii hi)%nat.

(** The length of the match of [p] that starts at the head of [s]. *)
Fixpoint matchHere (p : Pattern) (s : string) : option nat :=
  match p with
  | [] => Some 0%nat
  | EndOfInput :: p' =>
      match s with
      | EmptyString => matchHere p' s
      | String _ _ => None
      end
  | Char c :: p' =>
      match s with
      | EmptyString => None
      | String c' s' =>
          if Ascii.eqb c c' then option_map S (matchHere p' s') else None
      end
  | Class lo hi :: p' =>
      match s with
      | EmptyString => None
      | String c' s' =>
          if inClass lo hi c' then option_map S (matchHere p' s') else None
      end
  end.

(** [RegExp.prototype.exec] without the [g] flag: the leftmost match, as
    its start index and its length. *)
Fixpoint exec (p : Pattern) (s : string) : option (nat * nat) :=
  match matchHere p s with
  | Some n => Some (0%nat, n)
  | None =>
      match s with
      | EmptyString => None
      | String _ s' =>
          match exec p s' with
          | Some (i, n) => Some (S i, n)
          | None => None
          end
      end
  end.

(** [s.slice(i)]. *)
Fixpoint sliceFrom (i : nat) (s : string) : string :=
  match i, s with
  | O, _ => s
  | S i', String _ s' => sliceFrom i' s'
  | S _, EmptyString => EmptyString
  end.

(** [s.replace(p, replacement)] for a replacement without [$] patterns:
    the first match is replaced, a string without a match is returned as
    it is. *)
Definition replace (p : Pattern) (replacement : string) (s : string) : string :=
  match exec p s with
  | None => s
  | Some (i, n) => substring 0 i s ++ replacement ++ sliceFrom (i + n) s
  end.

End Js.

(* ====================================================================== *)
(** ** The data model and the state container                               *)
(* ====================================================================== *)

Module Model.
Import Js.

(** [interface GeomatchResult]. *)
Record GeomatchResult : Type := {
  id : string;
  initial_rank : number;
  vector_distance : number;
  refined_rank : number;
  matches : number;
  latitude : number;
  longitude : number;
  elevation : number;
  date : string
}.

(** [interface GeomatchResponse]. *)
Record GeomatchResponse : Type := {
  count : number;
  results : list GeomatchResult
}.

(** [type ViewMode = "streetview" | "map"]. *)
Inductive ViewMode : Type := streetview | map.

(** The [useState] cells of [OSINTDashboard], in the order of their
    declaration. [part_000] has the first six and no [viewMode]. *)
Record State : Type := {
  selectedImage : option File;
  previewUrl : option string;
  isLoading : bool;
  apiResponse : option GeomatchResponse;
  selectedResult : Nullable GeomatchResult;
  errorMsg : option string;
  viewMode : ViewMode
}.

(** The values the cells are created with. *)
Definition initialState : State :=
  {| selectedImage := None; previewUrl := None; isLoading := false;
     apiResponse := None; selectedResult := Null; errorMsg := None;
     viewMode := streetview |}.

(** The results that are selected in a state: the content of the one cell
    [selectedResult]. *)
Definition selection (s : State) : list GeomatchResult :=
  match selectedResult s with
  | Value r => [r]
  | Null | Undefined => []
  end.

(** *** The handler monad: a handler reads and writes the cells and may
    throw. *)

Definition Handler (A : Type) : Type := State -> Exc A * State.

Definition ret {A} (a : A) : Handler A := fun s => (inr a, s).

Definition bind {A B} (m : Handler A) (k : A -> Handler B) : Handler B :=
  fun s =>
    match m s with
    | (inl e, s') => (inl e, s')
    | (inr a, s') => k a s'
    end.

Definition throw {A} (e : JsThrown) : Handler A := fun s => (inl e, s).

(** [await p] for a promise whose outcome is [p]. *)
Definition await {A} (p : Exc A) : Handler A := fun s => (p, s).

(** [try { body } catch (error) { handler } finally { cleanup }]. *)
Definition try_catch_finally
    (body : Handler unit) (handler : JsThrown -> Handler unit)
    (cleanup : Handler unit) : Handler unit :=
  fun s =>
    let '(r, s1) :=
      match body s with
      | (inl error, s') => handler error s'
      | (inr tt, s') => (inr tt, s')
      end in
    match cleanup s1 with
    | (inl e, s2) => (inl e, s2)
    | (inr tt, s2) => (r, s2)
    end.

(** The state a handler leaves. *)
Definition run {A} (h : Handler A) (s : State) : State := snd (h s).

Declare Scope handler_scope.
Delimit Scope handler_scope with handler.
Notation "x <- m ;; k" := (bind m (fun x => k))
  (at level 61, m at next level, right associativity) : handler_scope.
Notation "m ;; k" := (bind m (fun _ => k))
  (at level 61, right associativity) : handler_scope.

(** The setters returned by [useState]. *)
Definition setSelectedImage (v : option File) : Handler unit :=
  fun s => (inr tt,
    {| selectedImage := v; previewUrl := previewUrl s; isLoading := isLoading s;
       apiResponse := apiResponse s; selectedResult := selectedResult s;
       errorMsg := errorMsg s; viewMode := viewMode s |}).

Definition setPreviewUrl (v : option string) : Handler unit :=
  fun s => (inr tt,
    {| selectedImage := selectedImage s; previewUrl := v; isLoading := isLoading s;
       apiResponse := apiResponse s; selectedResult := selectedResult s;
       errorMsg := errorMsg s; viewMode := viewMode s |}).

Definition setIsLoading (v : bool) : Handler unit :=
  fun s => (inr tt,
    {| selectedImage := selectedImage s; previewUrl := previewUrl s; isLoading := v;
       apiResponse := apiResponse s; selectedResult := selectedResult s;
       errorMsg := errorMsg s; viewMode := viewMode s |}).

Definition setApiResponse (v : option GeomatchResponse) : Handler unit :=
  fun s => (inr tt,
    {| selectedImage := selectedImage s; previewUrl := previewUrl s;
       isLoading := isLoading s; apiResponse := v;
       selectedResult := selectedResult s; errorMsg := errorMsg s;
       viewMode := viewMode s |}).

Definition setSelectedResult (v : Nullable GeomatchResult) : Handler unit :=
  fun s => (inr tt,
    {| selectedImage := selectedImage s; previewUrl := previewUrl s;
       isLoading := isLoading s; apiResponse := apiResponse s;
       selectedResult := v; errorMsg := errorMsg s; viewMode := viewMode s |}).

Definition setErrorMsg (v : option string) : Handler unit :=
  fun s => (inr tt,
    {| selectedImage := selectedImage s; previewUrl := previewUrl s;
       isLoading := isLoading s; apiResponse := apiResponse s;
       selectedResult := selectedResult s; errorMsg := v; viewMode := viewMode s |}).

Definition setViewMode (v : ViewMode) : Handler unit :=
  fun s => (inr tt,
    {| selectedImage := selectedImage s; previewUrl := previewUrl s;
       isLoading := isLoading s; apiResponse := apiResponse s;
       selectedResult := selectedResult s; errorMsg := errorMsg s; viewMode := v |}).

(** *** Requests and responses. *)

(** A multipart body: the entries appended to a [FormData]. *)
Definition FormData : Type := list (string * File).

(** The arguments of a call of [fetch]. *)
Record FetchRequest : Type := {
  url : string;
  method : string;
  body : FormData
}.

(** [response.ok]: the status is in the range 200-299. *)
Definition okStatus (status : Z) : bool := (200 <=? status)%Z && (status <=? 299)%Z.

(** The response the dashboard receives from the forwarding path, by the
    branch of [if (!response.ok)] it takes and the type the handler reads
    the body at: [errData] is [any], [data] is declared a
    [GeomatchResponse]. [json] is the outcome of [response.json()]. A
    success body that is not of the declared type (the forwarder relays
    whatever JSON the backend sends) is outside the embedding: the
    handler stores it all the same, and for a body without a [results]
    array [data.results[0]] throws into the [catch] block. The
    statements about a success are about bodies of the declared type. *)
Inductive Response : Type :=
| Failure (status : Z) (json : Exc JsValue)
| Success (status : Z) (json : Exc GeomatchResponse).

Definition ok (response : Response) : bool :=
  match response with
  | Failure _ _ => false
  | Success _ _ => true
  end.

(** The call both revisions of the dashboard make:
    [fetch(`/api/v1/query?top_k=30`, { method: "POST", body: formData })]
    after [formData.append("image_file", selectedImage)]. *)
Definition queryRequest (image : File) : FetchRequest :=
  let formData := [("image_file", image)] in
  {| url := "/api/v1/query?top_k=30";
     method := "POST";
     body := formData |}.

(** The change event of the file input: [e.target.files]. *)
Record ChangeEvent : Type := {
  files : option (list File)
}.

(** [process.env], as far as the repository reads it. *)
Record Env : Type := {
  VPS_API_URL : option string;
  NEXT_PUBLIC_GOOGLE_MAPS_KEY : option string;
  NEXT_PUBLIC_MAPBOX_TOKEN : option string
}.

(** [!process.env.X]: an unset variable and an empty one are both falsy. *)
Definition missing (v : option string) : bool :=
  match v with
  | Some s => negb (truthyString s)
  | None => true
  end.

End Model.

(* ====================================================================== *)
(** ** The request forwarder: [src/app/api/v1/query/route.ts]               *)
(* ====================================================================== *)

Module Route.
Import Js Model.

(** [URLSearchParams] of the request URL: the pairs of the query string,
    in order. *)
Definition URLSearchParams : Type := list (string * string).

(** [searchParams.get(name)]: the value of the first pair named [name],
    [null] when there is none. *)
Fixpoint get (searchParams : URLSearchParams) (name : string) : option string :=
  match searchParams with
  | [] => None
  | (k, v) :: rest => if String.eqb k name then Some v else get rest name
  end.

(** The incoming [Request]: its parsed URL, and the outcome of
    [request.formData()]. *)
Record Request : Type := {
  searchParams : URLSearchParams;
  formData : Exc FormData
}.

(** The backend's response: its status, and the outcomes of
    [backendResponse.text()] and [backendResponse.json()]. *)
Record BackendResponse : Type := {
  status : Z;
  text : Exc string;
  json : Exc JsValue
}.

(** The backend, seen from the handler: the outcome of [fetch]. *)
Definition Backend : Type := FetchRequest -> Exc BackendResponse.

(** What the handler returns: [NextResponse.json(body, { status })]. *)
Record NextResponse : Type := {
  nr_status : Z;
  nr_body : JsValue
}.

(** *** [NextResponse.json]

    [NextResponse.json(body, init)] writes [JSON.stringify(body)] into a
    response with the status of [init] (200 without one), and it throws
    where the [Response] constructor does. *)

(** A number as [JSON.stringify] writes it, read back: a number that is
    not finite is written [null], negative zero is written [0]. *)
Definition jsonNumber (x : number) : JsValue :=
  if PrimFloat.is_nan x || PrimFloat.is_infinity x then JNull
  else if PrimFloat.Leibniz.eqb x PrimFloat.neg_zero then JNumber 0%float
  else JNumber x.

(** The value the text [JSON.stringify(v)] denotes: what the receiver of
    the response parses. Inside an array [undefined] is written [null];
    a property whose value is [undefined] is left out. *)
Fixpoint jsonValue (v : JsValue) : JsValue :=
  match v with
  | JUndefined => JNull
  | JNull => JNull
  | JBool b => JBool b
  | JNumber x => jsonNumber x
  | JString s => JString s
  | JArray elems =>
      JArray ((fix each (l : list JsValue) : list JsValue :=
                 match l with
                 | [] => []
                 | e :: rest => jsonValue e :: each rest
                 end) elems)
  | JObject props =>
      JObject ((fix each (l : list (string * JsValue)) : list (string * JsValue) :=
                  match l with
                  | [] => []
                  | (k, JUndefined) :: rest => each rest
                  | (k, e) :: rest => (k, jsonValue e) :: each rest
                  end) props)
  end.

(** A number [JSON.stringify] writes as it is. *)
Definition plainNumber (x : number) : bool :=
  negb (PrimFloat.is_nan x || PrimFloat.is_infinity x)
  && negb (PrimFloat.Leibniz.eqb x PrimFloat.neg_zero).

(** A value whose numbers are all finite and not negative zero, and
    that holds no [undefined]: every value [JSON.parse] gives for a text
    without a literal beyond the range of a number and without [-0]. *)
Fixpoint plainJson (v : JsValue) : bool :=
  match v with
  | JUndefined => false
  | JNull | JBool _ | JString _ => true
  | JNumber x => plainNumber x
  | JArray elems =>
      (fix each (l : list JsValue) : bool :=
         match l with
         | [] => true
         | e :: rest => plainJson e && each rest
         end) elems
  | JObject props =>
      (fix each (l : list (string * JsValue)) : bool :=
         match l with
         | [] => true
         | (_, e) :: rest => plainJson e && each rest
         end) props
  end.

(** A null body status: a response with that status cannot have a body. *)
Definition nullBodyStatus (status : Z) : bool :=
  (status =? 101)%Z || (status =? 103)%Z || (status =? 204)%Z
  || (status =? 205)%Z || (status =? 304)%Z.

(** A status the [Response] constructor accepts for a response with a
    body: in the range 200 to 599, and not a null body status. *)
Definition acceptsBody (status : Z) : bool :=
  (200 <=? status)%Z && (status <=? 599)%Z && negb (nullBodyStatus status).

(** The response [NextResponse.json] gives when it does not throw. *)
Definition NextResponse_make (body : JsValue) (status : Z) : NextResponse :=
  {| nr_status := status; nr_body := jsonValue body |}.

(** [NextResponse.json(body, init)]. It throws a [TypeError] when
    [JSON.stringify(body)] is [undefined], a [RangeError] when the status
    is outside 200 to 599, and a [TypeError] when the status is a null
    body status. The messages of these errors are the runtime's; the
    handler only logs them, and they are written here by what they say. *)
Definition NextResponse_json (body : JsValue) (init : option Z) : Exc NextResponse :=
  let status := match init with Some status => status | None => 200%Z end in
  match body with
  | JUndefined => inl (ErrorObject "Value is not JSON serializable")
  | _ =>
      if negb ((200 <=? status)%Z && (status <=? 599)%Z)
      then inl (ErrorObject "status must be in the range of 200 to 599")
      else if nullBodyStatus status
      then inl (ErrorObject "Invalid response status code")
      else inr (NextResponse_make body status)
  end.

(** The error object [{ detail }]. *)
Definition detailObject (detail : string) : JsValue :=
  JObject [("detail", JString detail)].

(** The steps of the [try] block may throw; the [catch] block may not. *)
Definition bindExc {A B} (m : Exc A) (k : A -> Exc B) : Exc B :=
  match m with
  | inl e => inl e
  | inr a => k a
  end.

Definition try_catch {A} (body : Exc A) (handler : JsThrown -> A) : A :=
  match body with
  | inl error => handler error
  | inr a => a
  end.

Declare Scope exc_scope.
Delimit Scope exc_scope with exc.
Notation "x <- m ;; k" := (bindExc m (fun x => k))
  (at level 61, m at next level, right associativity) : exc_scope.

(** [const topK = searchParams.get('top_k') || '30']. *)
Definition topK (request : Request) : string :=
  orString (get (searchParams request) "top_k") "30".

(** [const VPS_URL = process.env.VPS_API_URL || "http://46.224.67.64:1717"]. *)
Definition VPS_URL (env : Env) : string :=
  orString (VPS_API_URL env) "http://46.224.67.64:1717".

(** The call of [fetch] that forwards the upload. *)
Definition backendRequest (env : Env) (request : Request) (formData : FormData)
  : FetchRequest :=
  {| url := VPS_URL env ++ "/query?top_k=" ++ topK request;
     method := "POST";
     body := formData |}.

(** [export async function POST(request)]. The two [console.error] calls
    write to the log only and are left out. The call of
    [NextResponse.json] in the [catch] block has a body that is an object
    and the status 500, for which it does not throw
    ([NextResponse_json] gives [NextResponse_make] there). *)
Definition POST (env : Env) (fetch : Backend) (request : Request) : NextResponse :=
  try_catch
    (formData <- formData request ;;
     backendResponse <- fetch (backendRequest env request formData) ;;
     if negb (okStatus (status backendResponse)) then
       (errorText <- text backendResponse ;;
        NextResponse_json
          (detailObject ("Target Server Error: "
                         ++ Z_to_string (status backendResponse)))
          (Some (status backendResponse)))
     else
       (data <- json backendResponse ;;
        NextResponse_json data None))%exc
    (fun error =>
       NextResponse_make (detailObject "Internal Server Proxy Error") 500%Z).

(** *** What the receiver of the forwarded URL reads

    [fetch] parses the string it is given as a URL; the receiver reads
    the query of that URL as [new URL(request.url).searchParams] does at
    the head of the handler. *)

Definition isC0OrSpace (c : ascii) : bool := (nat_of_ascii c <=? 32)%nat.

Definition isTabOrNewline (c : ascii) : bool :=
  (nat_of_ascii c =? 9)%nat || (nat_of_ascii c =? 10)%nat || (nat_of_ascii c =? 13)%nat.

(** The parser first strips leading and trailing C0 controls and spaces
    from its input ... *)
Fixpoint trimStart (s : string) : string :=
  match s with
  | EmptyString => EmptyString
  | String c s' => if isC0OrSpace c then trimStart s' else s
  end.

Fixpoint trimEnd (s : string) : string :=
  match s with
  | EmptyString => EmptyString
  | String c s' =>
      match trimEnd s' with
      | EmptyString => if isC0OrSpace c then EmptyString else String c EmptyString
      | String c' r => String c (String c' r)
      end
  end.

(** ... and then removes every tab and newline. *)
Fixpoint removeTabNewline (s : string) : string :=
  match s with
  | EmptyString => EmptyString
  | String c s' =>
      if isTabOrNewline c then removeTabNewline s' else String c (removeTabNewline s')
  end.

(** The part of [s] before the first [c] (all of [s] without one). *)
Fixpoint before (c : ascii) (s : string) : string :=
  match s with
  | EmptyString => EmptyString
  | String c' s' => if Ascii.eqb c' c then EmptyString else String c' (before c s')
  end.

(** The part of [s] after the first [c], if there is one. *)
Fixpoint after (c : ascii) (s : string) : option string :=
  match s with
  | EmptyString => None
  | String c' s' => if Ascii.eqb c' c then Some s' else after c s'
  end.

(** The query of a URL that parses: what stands between the first [?]
    and the fragment, which starts at the first [#]. *)
Definition urlQuery (input : string) : option string :=
  after "?" (before "#" (removeTabNewline (trimEnd (trimStart input)))).

(** The sequences of [s] between the occurrences of [sep]. *)
Fixpoint splitOn (sep : ascii) (s : string) : list string :=
  match s with
  | EmptyString => [EmptyString]
  | String c s' =>
      if Ascii.eqb c sep then EmptyString :: splitOn sep s'
      else
        match splitOn sep s' with
        | [] => [String c EmptyString]
        | first :: others => String c first :: others
        end
  end.

Definition hexValue (c : ascii) : option nat :=
  let n := nat_of_ascii c in
  if (48 <=? n)%nat && (n <=? 57)%nat then Some (n - 48)%nat
  else if (65 <=? n)%nat && (n <=? 70)%nat then Some (n - 55)%nat
  else if (97 <=? n)%nat && (n <=? 102)%nat then Some (n - 87)%nat
  else None.

(** Percent-decoding: [%] followed by two hexadecimal digits is the byte
    they write, any other [%] stands for itself. A decoded byte above 127
    is part of a UTF-8 sequence, whose decoding is not modelled: the
    result is [None] then. *)
Fixpoint percentDecode (s : string) : option string :=
  match s with
  | EmptyString => Some EmptyString
  | String c s' =>
      if Ascii.eqb c "%" then
        match s' with
        | String h1 (String h2 rest) =>
            match hexValue h1, hexValue h2 with
            | Some a, Some b =>
                if (16 * a + b <? 128)%nat
                then option_map (String (ascii_of_nat (16 * a + b))) (percentDecode rest)
                else None
            | _, _ => option_map (String c) (percentDecode s')
            end
        | _ => option_map (String c) (percentDecode s')
        end
      else option_map (String c) (percentDecode s')
  end.

(** [+] stands for a space. *)
Fixpoint plusToSpace (s : string) : string :=
  match s with
  | EmptyString => EmptyString
  | String c s' => String (if Ascii.eqb c "+" then " "%char else c) (plusToSpace s')
  end.

(** A sequence [name=value] (or [name] alone) of a query, decoded. *)
Definition parsePair (sequence : string) : option (string * string) :=
  let name := before "=" sequence in
  let value := match after "=" sequence with Some v => v | None => EmptyString end in
  match percentDecode (plusToSpace name), percentDecode (plusToSpace value) with
  | Some n, Some v => Some (n, v)
  | _, _ => None
  end.

Fixpoint parsePairs (sequences : list string) : option URLSearchParams :=
  match sequences with
  | [] => Some []
  | EmptyString :: rest => parsePairs rest
  | sequence :: rest =>
      match parsePair sequence, parsePairs rest with
      | Some first, Some others => Some (first :: others)
      | _, _ => None
      end
  end.

(** The pairs of a query string: the sequences between [&], the empty
    ones left out. The URL parser percent-encodes some characters of the
    query and the reader decodes them again; the two steps cancel and
    are not written. *)
Definition parseQuery (query : string) : option URLSearchParams :=
  parsePairs (splitOn "&" query).

(** Every character of [s] satisfies [p]. *)
Fixpoint allChars (p : ascii -> bool) (s : string) : bool :=
  match s with
  | EmptyString => true
  | String c s' => p c && allChars p s'
  end.

(** A printable ASCII character other than [#], [&], [+] and [%]: one
    that the URL parser and the reader of the query leave as it is. *)
Definition plainChar (c : ascii) : bool :=
  (33 <=? nat_of_ascii c)%nat && (nat_of_ascii c <=? 126)%nat
  && negb (Ascii.eqb c "#") && negb (Ascii.eqb c "&")
  && negb (Ascii.eqb c "+") && negb (Ascii.eqb c "%").

(** A character that starts neither a query nor a fragment. *)
Definition notQueryOrFragment (c : ascii) : bool :=
  negb (Ascii.eqb c "?") && negb (Ascii.eqb c "#").

(** The parameters a receiver reads from a URL string ([None] where the
    decoding is not modelled). *)
Definition receivedParams (input : string) : option URLSearchParams :=
  match urlQuery input with
  | Some query => parseQuery query
  | None => Some []
  end.

(** The [top_k] the backend is sent by the handler. *)
Definition forwardedTopK (env : Env) (request : Request) (formData : FormData)
  : option (option string) :=
  option_map (fun params => get params "top_k")
             (receivedParams (url (backendRequest env request formData))).

(** What the browser's [fetch] resolves to for an error response of the
    handler: the status, and the body parsed back by [response.json()]. *)
Definition delivered (r : NextResponse) : Response :=
  Failure (nr_status r) (inr (nr_body r)).

End Route.

(* ====================================================================== *)
(** ** The dashboard: [src/app/page.tsx]                                    *)
(* ====================================================================== *)

Module Page.
Import Js Model.

(** [rawId.replace(/_[0-9]$/, "")]. *)
Definition formatPanoId (rawId : string) : string :=
  replace [Char "_"; Class "0" "9"; EndOfInput] "" rawId.

Section WithEngine.
Variable engine : Engine.

Local Open Scope handler_scope.

(** [const file = e.target.files?.[0]]. *)
Definition firstFile (e : ChangeEvent) : Nullable File :=
  match files e with
  | Some fileList => index fileList 0
  | None => Undefined
  end.

Definition handleImageChange (e : ChangeEvent) : Handler unit :=
  match firstFile e with
  | Value file =>
      setSelectedImage (Some file) ;;
      setPreviewUrl (Some (createObjectURL engine file)) ;;
      setApiResponse None ;;
      setSelectedResult Null ;;
      setErrorMsg None
  | Null | Undefined => ret tt
  end.

(** [handleSubmit] up to its first [await]: the guard, the two setters
    and the request that is sent. [None] is the early [return]. *)
Definition handleSubmit_start (s : State) : option (FetchRequest * State) :=
  match selectedImage s with
  | None => None
  | Some image =>
      let s1 := run (setIsLoading true ;; setErrorMsg None) s in
      Some (queryRequest image, s1)
  end.

(** [handleSubmit] from the point where [fetch] settles: the rest of the
    [try] block, the [catch] block and the [finally] block. [fetched]
    is the outcome of the awaited [fetch]. The [console.error] call
    writes to the log only and is left out. *)
Definition handleSubmit_settle (fetched : Exc Response) : Handler unit :=
  try_catch_finally
    (response <- await fetched ;;
     match response with
     | Failure status json =>
         errData <- await json ;;
         detail <- await (get_detail engine errData) ;;
         throw (newError engine
                  (orValue detail (JString ("Error: " ++ Z_to_string status))))
     | Success _ json =>
         data <- await json ;;
         setApiResponse (Some data) ;;
         setSelectedResult (index (results data) 0)
     end)
    (fun error =>
       setErrorMsg (Some match error with
                         | ErrorObject message => message
                         | NonError => "Connection failed"
                         end))
    (setIsLoading false).

(** A whole run of [handleSubmit], against a forwarding path that
    answers [fetch]. *)
Definition handleSubmit (fetch : FetchRequest -> Exc Response) (s : State) : State :=
  match handleSubmit_start s with
  | None => s
  | Some (request, s1) => run (handleSubmit_settle (fetch request)) s1
  end.

(** [onClick={() => setSelectedResult(result)}] of a result row or of a
    marker. *)
Definition selectResult (result : GeomatchResult) : Handler unit :=
  setSelectedResult (Value result).
End WithEngine.

(** *** What is rendered. *)

(** [disabled={isLoading || !selectedImage}] of the Locate button. *)
Definition locateDisabled (s : State) : bool :=
  isLoading s || negb (match selectedImage s with Some _ => true | None => false end).

(** A click on the Locate button: a disabled button dispatches no click. *)
Definition clickLocate (engine : Engine) (fetch : FetchRequest -> Exc Response)
    (s : State) : State :=
  if locateDisabled s then s else handleSubmit engine fetch s.

(** [{errorMsg && <div ...>{errorMsg}</div>}]: the message shown under the
    button, if any. *)
Definition errorBanner (s : State) : option string :=
  match errorMsg s with
  | Some message => if truthyString message then Some message else None
  | None => None
  end.

(** A marker of the map. *)
Record MarkerView : Type := {
  marker_key : string;
  marker_longitude : number;
  marker_latitude : number;
  marker_highlighted : bool
}.

(** The props the [Map] component is given. *)
Record MapView : Type := {
  dimmed : bool;
  mapboxAccessToken : option string;
  initialLongitude : number;
  initialLatitude : number;
  initialZoom : number;
  initialPitch : number;
  markers : list MarkerView
}.

(** The children of the left pane, each as the JSX writes it. *)
Inductive LeftPaneItem : Type :=
| ViewToggle (active : ViewMode)
| AwaitingTargetCoordinates
| MissingGoogleMapsKey          (* [ERROR: MISSING GOOGLE MAPS KEY] *)
| StreetviewFrame (src : string)
| MapboxMap (view : MapView).

(** [x || 0] on a number. *)
Definition orZero (x : number) : number :=
  if truthyNumber x then x else 0%float.

(** [selectedResult?.id === result.id]. *)
Definition isSelected (selected : Nullable GeomatchResult) (result : GeomatchResult) : bool :=
  match selected with
  | Value r => String.eqb (id r) (id result)
  | Null | Undefined => false
  end.

Definition mapView (env : Env) (s : State) : MapView :=
  {| dimmed := negb (truthy (selectedResult s));
     mapboxAccessToken := NEXT_PUBLIC_MAPBOX_TOKEN env;
     initialLongitude :=
       match selectedResult s with
       | Value r => orZero (longitude r)
       | Null | Undefined => 0%float
       end;
     initialLatitude :=
       match selectedResult s with
       | Value r => orZero (latitude r)
       | Null | Undefined => 0%float
       end;
     initialZoom := if truthy (selectedResult s) then 18%float else 1%float;
     initialPitch := if truthy (selectedResult s) then 30%float else 0%float;
     markers :=
       match apiResponse s with
       | Some response =>
           List.map (fun result =>
                       {| marker_key := id result;
                          marker_longitude := longitude result;
                          marker_latitude := latitude result;
                          marker_highlighted := isSelected (selectedResult s) result |})
                    (results response)
       | None => []
       end |}.

(** The left pane: the toggle, the fallback, the streetview render and the
    Mapbox render, in the order of the JSX. *)
Definition leftPane (env : Env) (s : State) : list LeftPaneItem :=
  [ViewToggle (viewMode s)]
  ++ (if negb (truthy (selectedResult s)) then [AwaitingTargetCoordinates] else [])
  ++ (match viewMode s, selectedResult s with
      | streetview, Value selected =>
          match NEXT_PUBLIC_GOOGLE_MAPS_KEY env with
          | Some key =>
              if negb (truthyString key) then [MissingGoogleMapsKey]
              else
                [StreetviewFrame
                   ("https://www.google.com/maps/embed/v1/streetview?key="
                    ++ key ++ "&pano=" ++ formatPanoId (id selected))]
          | None => [MissingGoogleMapsKey]
          end
      | _, _ => []
      end)
  ++ (match viewMode s with
      | map => [MapboxMap (mapView env s)]
      | streetview => []
      end).

(** An item that reports an error to the user. *)
Definition isErrorItem (item : LeftPaneItem) : bool :=
  match item with
  | MissingGoogleMapsKey => true
  | ViewToggle _ | AwaitingTargetCoordinates | StreetviewFrame _ | MapboxMap _ => false
  end.

End Page.

(* ====================================================================== *)
(** ** The other revision of the dashboard: [src/unnamed/part_000]          *)
(* ====================================================================== *)

Module Part000.
Import Js Model.

(** [rawId.replace(/_[0-9]$/, "")]. *)
Definition formatPanoId (rawId : string) : string :=
  replace [Char "_"; Class "0" "9"; EndOfInput] "" rawId.

Section WithEngine.
Variable engine : Engine.

Local Open Scope handler_scope.

Definition handleImageChange (e : ChangeEvent) : Handler unit :=
  match Page.firstFile e with
  | Value file =>
      setSelectedImage (Some file) ;;
      setPreviewUrl (Some (createObjectURL engine file)) ;;
      setApiResponse None ;;
      setSelectedResult Null ;;
      setErrorMsg None
  | Null | Undefined => ret tt
  end.

Definition handleSubmit_start (s : State) : option (FetchRequest * State) :=
  match selectedImage s with
  | None => None
  | Some image =>
      let s1 := run (setIsLoading true ;; setErrorMsg None) s in
      Some (queryRequest image, s1)
  end.

(** As in [page.tsx], but the first result is selected only inside
    [if (data.results.length > 0)]. *)
Definition handleSubmit_settle (fetched : Exc Response) : Handler unit :=
  try_catch_finally
    (response <- await fetched ;;
     match response with
     | Failure status json =>
         errData <- await json ;;
         detail <- await (get_detail engine errData) ;;
         throw (newError engine
                  (orValue detail (JString ("Error: " ++ Z_to_string status))))
     | Success _ json =>
         data <- await json ;;
         setApiResponse (Some data) ;;
         if (0 <? List.length (results data))%nat
         then setSelectedResult (index (results data) 0)
         else ret tt
     end)
    (fun error =>
       setErrorMsg (Some match error with
                         | ErrorObject message => message
                         | NonError => "Connection failed"
                         end))
    (setIsLoading false).

Definition handleSubmit (fetch : FetchRequest -> Exc Response) (s : State) : State :=
  match handleSubmit_start s with
  | None => s
  | Some (request, s1) => run (handleSubmit_settle (fetch request)) s1
  end.
End WithEngine.

(** The children of the left pane:
    [!GOOGLE_MAPS_KEY ? error : !selectedResult ? awaiting : iframe]. *)
Inductive LeftPaneItem : Type :=
| MissingGoogleMapsKey
| AwaitingTargetCoordinates
| StreetviewFrame (src : string).

Definition leftPane (env : Env) (s : State) : LeftPaneItem :=
  match NEXT_PUBLIC_GOOGLE_MAPS_KEY env with
  | Some GOOGLE_MAPS_KEY =>
      if negb (truthyString GOOGLE_MAPS_KEY) then MissingGoogleMapsKey
      else
        match selectedResult s with
        | Value selected =>
            StreetviewFrame
              ("https://www.google.com/maps/embed/v1/streetview?key="
               ++ GOOGLE_MAPS_KEY ++ "&pano=" ++ formatPanoId (id selected))
        | Null | Undefined => AwaitingTargetCoordinates
        end
  | None => MissingGoogleMapsKey
  end.

End Part000.

(* ====================================================================== *)
(** ** The rest of the component: header, effect, preview, result list      *)
(* ====================================================================== *)

Module PageView.
Import Js Model.

(** [STATUS: {isLoading ? "LOCATING..." : "IDLE"}] of [page.tsx]. *)
Definition statusText (s : State) : string :=
  if isLoading s then "LOCATING..." else "IDLE".

(** [STATUS: {isLoading ? "SCANNING..." : "IDLE"}] of [part_000]. *)
Definition statusText_part000 (s : State) : string :=
  if isLoading s then "SCANNING..." else "IDLE".

(** The argument of [mapRef.current.flyTo]. *)
Record FlyToOptions : Type := {
  center : number * number;
  zoom : number;
  pitch : number;
  bearing : number;
  duration : number
}.

(** The body of the effect that depends on [selectedResult] and
    [viewMode]: the call of [flyTo] it makes, if any. [mapMounted] says
    whether [mapRef.current] is set. *)
Definition flyToEffect (mapMounted : bool) (s : State) : option FlyToOptions :=
  match viewMode s, selectedResult s with
  | map, Value selected =>
      if mapMounted then
        Some {| center := (longitude selected, latitude selected);
                zoom := 18%float;
                pitch := 30%float;
                bearing := 0%float;
                duration := 2000%float |}
      else None
  | _, _ => None
  end.

(** The content of the upload label:
    [previewUrl ? <Image src={previewUrl} /> : <span>UPLOAD_TARGET.JPG</span>]. *)
Inductive PreviewView : Type :=
| TargetImage (src : string)
| UploadPlaceholder.

Definition preview (s : State) : PreviewView :=
  match previewUrl s with
  | Some src => if truthyString src then TargetImage src else UploadPlaceholder
  | None => UploadPlaceholder
  end.

(** A row of the result list: its key, whether it is drawn as the
    selected one, the rank and the coordinates it shows, and its
    [onClick]. *)
Record RowView : Type := {
  row_key : string;
  row_selected : bool;
  row_rank : number;
  row_coordinates : string;
  row_onClick : Handler unit
}.

Section WithFormat.
(** [Number.prototype.toFixed]. *)
Variable toFixed : number -> nat -> string.

Definition rowView (selected : Nullable GeomatchResult) (result : GeomatchResult)
  : RowView :=
  {| row_key := id result;
     row_selected := Page.isSelected selected result;
     row_rank := refined_rank result;
     row_coordinates :=
       toFixed (latitude result) 6 ++ ", " ++ toFixed (longitude result) 6;
     row_onClick := setSelectedResult (Value result) |}.

(** The result list: [None] is the [NO DATA] placeholder of
    [!apiResponse], [Some rows] the mapped results. *)
Definition resultsList (s : State) : option (list RowView) :=
  match apiResponse s with
  | None => None
  | Some response => Some (List.map (rowView (selectedResult s)) (results response))
  end.
End WithFormat.

End PageView.

(* ====================================================================== *)
(** ** Vocabulary of the statements, and sample data                        *)
(* ====================================================================== *)

Module Spec.
Import Js Model.

(** An error object [{ detail?: string }]: a parsed object whose [detail],
    when it has one, is a string. *)
Definition errorObject (v : JsValue) : Prop :=
  exists props,
    v = JObject props
    /\ (lookup props "detail" = JUndefined
        \/ exists d, lookup props "detail" = JString d).

(** The response of the forwarder's [catch] block. *)
Definition internalError : Route.NextResponse :=
  {| Route.nr_status := 500%Z;
     Route.nr_body := JObject [("detail", JString "Internal Server Proxy Error")] |}.

(** The response of the forwarder for a backend status that is not a
    success. *)
Definition targetError (status : Z) : Route.NextResponse :=
  {| Route.nr_status := status;
     Route.nr_body :=
       JObject [("detail", JString ("Target Server Error: " ++ Z_to_string status))] |}.

(** What the [catch] and [finally] blocks leave of a state. *)
Definition failedWith (message : string) (s : State) : State :=
  {| selectedImage := selectedImage s; previewUrl := previewUrl s;
     isLoading := false; apiResponse := apiResponse s;
     selectedResult := selectedResult s; errorMsg := Some message;
     viewMode := viewMode s |}.

(** The message the [catch] block stores for an error object: that of
    what [throw new Error(errData.detail || `Error: ${response.status}`)]
    throws. *)
Definition failureMessage (engine : Engine) (status : Z) (props : list (string * JsValue)) : string :=
  match newError engine (orValue (lookup props "detail")
                                 (JString ("Error: " ++ Z_to_string status))) with
  | ErrorObject message => message
  | NonError => "Connection failed"
  end.

(** An engine to run the handlers with. *)
Definition sampleEngine : Engine :=
  {| numberToString := fun _ => "NaN";
     nullReadMessage := "Cannot read properties of null";
     createObjectURL := fun file => "blob:" ++ file_name file;
     toPrimitiveMessage := "Cannot convert object to primitive value" |}.

Definition sampleFile : File :=
  {| file_name := "target.jpg"; file_type := "image/jpeg"; file_bytes := [] |}.

Definition otherFile : File :=
  {| file_name := "other.png"; file_type := "image/png"; file_bytes := [] |}.

Definition sampleResult : GeomatchResult :=
  {| id := "CAoSLEFGMVFpcE1fX2_3";
     initial_rank := 4%float; vector_distance := 0.25%float;
     refined_rank := 1%float; matches := 87%float;
     latitude := 50.125%float; longitude := 14.5%float;
     elevation := 235%float; date := "2021-06" |}.

Definition secondResult : GeomatchResult :=
  {| id := "Zm9vYmFy";
     initial_rank := 1%float; vector_distance := 0.5%float;
     refined_rank := 2%float; matches := 12%float;
     latitude := 48.25%float; longitude := 16.375%float;
     elevation := 171%float; date := "2019-08" |}.

Definition sampleResponse : GeomatchResponse :=
  {| count := 2%float; results := [sampleResult; secondResult] |}.

Definition emptyResponse : GeomatchResponse :=
  {| count := 0%float; results := [] |}.

(** An image is chosen, nothing was submitted yet. *)
Definition readyState : State :=
  {| selectedImage := Some sampleFile; previewUrl := Some "blob:target.jpg";
     isLoading := false; apiResponse := None; selectedResult := Null;
     errorMsg := None; viewMode := streetview |}.

(** A query was answered and its first result is selected. *)
Definition answeredState : State :=
  {| selectedImage := Some sampleFile; previewUrl := Some "blob:target.jpg";
     isLoading := false; apiResponse := Some sampleResponse;
     selectedResult := Value sampleResult; errorMsg := None;
     viewMode := streetview |}.

(** A request is pending. *)
Definition busyState : State :=
  {| selectedImage := Some sampleFile; previewUrl := Some "blob:target.jpg";
     isLoading := true; apiResponse := None; selectedResult := Null;
     errorMsg := None; viewMode := streetview |}.

(** The answered state, seen on the map. *)
Definition mapState : State :=
  {| selectedImage := Some sampleFile; previewUrl := Some "blob:target.jpg";
     isLoading := false; apiResponse := Some sampleResponse;
     selectedResult := Value sampleResult; errorMsg := None;
     viewMode := map |}.

(** Environments in which one of the two keys is not set. *)
Definition envWithoutMapboxToken : Env :=
  {| VPS_API_URL := Some "http://backend.example:1717";
     NEXT_PUBLIC_GOOGLE_MAPS_KEY := Some "AIza-sample";
     NEXT_PUBLIC_MAPBOX_TOKEN := None |}.

Definition envWithoutGoogleKey : Env :=
  {| VPS_API_URL := Some "http://backend.example:1717";
     NEXT_PUBLIC_GOOGLE_MAPS_KEY := None;
     NEXT_PUBLIC_MAPBOX_TOKEN := Some "pk.sample" |}.

(** A backend that answers every request with status 503. *)
Definition unavailableBackend : Route.Backend :=
  fun _ => inr {| Route.status := 503%Z;
                  Route.text := inr "Service Unavailable";
                  Route.json := inl (ErrorObject "Unexpected token S in JSON") |}.

(** A backend that answers every request with an empty match list. *)
Definition emptyBackend : Route.Backend :=
  fun _ => inr {| Route.status := 200%Z;
                  Route.text := inr "{}";
                  Route.json := inr (JObject [("count", JNumber 0%float);
                                              ("results", JArray [])]) |}.

(** An answer with status 304 and no body. *)
Definition notModifiedResponse : Route.BackendResponse :=
  {| Route.status := 304%Z;
     Route.text := inr "";
     Route.json := inl (ErrorObject "Unexpected end of JSON input") |}.

(** A success whose body is the JSON text [1e400], parsed as [Infinity]. *)
Definition overflowResponse : Route.BackendResponse :=
  {| Route.status := 200%Z;
     Route.text := inr "1e400";
     Route.json := inr (JNumber PrimFloat.infinity) |}.

(** An environment whose backend address has a query of its own. *)
Definition envWithQueryInAddress : Env :=
  {| VPS_API_URL := Some "http://backend.example:1717/api?v=1";
     NEXT_PUBLIC_GOOGLE_MAPS_KEY := Some "AIza-sample";
     NEXT_PUBLIC_MAPBOX_TOKEN := Some "pk.sample" |}.

(** A backend that cannot be reached. *)
Definition unreachableBackend : Route.Backend :=
  fun _ => inl (ErrorObject "fetch failed").

(** A request with an upload and the given query string. *)
Definition uploadRequest (query : Route.URLSearchParams) : Route.Request :=
  {| Route.searchParams := query;
     Route.formData := inr [("image_file", sampleFile)] |}.

End Spec.

(** Further vocabulary. *)

Module Terms.
Import Js Model.

(** The message the [catch] block of [handleSubmit] stores for a thrown
    value. *)
Definition thrownMessage (error : JsThrown) : string :=
  match error with
  | ErrorObject message => message
  | NonError => "Connection failed"
  end.

(** What a successful response leaves of a state in [page.tsx]. *)
Definition answeredWith (data : GeomatchResponse) (s : State) : State :=
  {| selectedImage := selectedImage s; previewUrl := previewUrl s;
     isLoading := false; apiResponse := Some data;
     selectedResult := index (results data) 0; errorMsg := errorMsg s;
     viewMode := viewMode s |}.

(** The state in which [handleSubmit] sends its request. *)
Definition pendingOf (s : State) : State :=
  {| selectedImage := selectedImage s; previewUrl := previewUrl s;
     isLoading := true; apiResponse := apiResponse s;
     selectedResult := selectedResult s; errorMsg := None;
     viewMode := viewMode s |}.

(** The results of a list that are drawn as selected. *)
Definition highlighted (selected : Nullable GeomatchResult)
    (l : list GeomatchResult) : list GeomatchResult :=
  filter (Page.isSelected selected) l.

(** The source of the panorama frame for a key and a panorama id. *)
Definition embedUrl (key pano : string) : string :=
  "https://www.google.com/maps/embed/v1/streetview?key=" ++ key ++ "&pano=" ++ pano.

(** A stand-in for [toFixed] in examples. *)
Definition sampleToFixed (x : number) (digits : nat) : string := "0.000000".

End Terms.

(* ====================================================================== *)
(** ** Properties                                                           *)
(* ====================================================================== *)

Import Js Model Spec.

(** *** The panorama identifier *)

Section PanoId.

(** [c] is one of the characters [0] to [9]. *)
Definition isDigit (c : ascii) : bool := inClass "0" "9" c.

(** The two-character suffix [_d]. *)
Definition panoSuffix (d : ascii) : string := String "_" (String d EmptyString).

Definition panoPattern : Pattern := [Char "_"; Class "0" "9"; EndOfInput].

Lemma matchHere_suffix (d : ascii) :
  isDigit d = true -> matchHere panoPattern (panoSuffix d) = Some 2%nat.
Proof.
  intros Hd. unfold isDigit in Hd. unfold panoPattern, panoSuffix.
  cbn [matchHere option_map]. rewrite Hd.
  now destruct (Ascii.eqb_spec "_" "_").
Qed.

Lemma matchHere_inv (s : string) (n : nat) :
  matchHere panoPattern s = Some n ->
  exists d, isDigit d = true /\ s = panoSuffix d /\ n = 2%nat.
Proof.
  unfold panoPattern.
  destruct s as [|c s]; cbn [matchHere]; [discriminate|].
  destruct (Ascii.eqb_spec "_" c) as [<-|]; [|discriminate].
  destruct s as [|d s]; cbn [matchHere option_map]; [discriminate|].
  destruct (inClass "0" "9" d) eqn:Hd; [|discriminate].
  destruct s as [|e s]; cbn [matchHere option_map]; [|discriminate].
  intros [= <-]. now exists d.
Qed.

(** No match starts at the head of a string that goes on after [_d]. *)
Lemma matchHere_longer (c : ascii) (p : string) (d : ascii) :
  matchHere panoPattern (String c (p ++ panoSuffix d)) = None.
Proof.
  destruct (matchHere panoPattern (String c (p ++ panoSuffix d))) as [n|] eqn:E;
    [|reflexivity].
  apply matchHere_inv in E. destruct E as (d' & _ & E & _).
  unfold panoSuffix in E. injection E as _ E.
  destruct p as [|x p]; cbn in E; [discriminate|].
  injection E as _ E. destruct p; discriminate.
Qed.

Lemma exec_eq (p : Pattern) (s : string) :
  exec p s =
  match matchHere p s with
  | Some n => Some (0%nat, n)
  | None =>
      match s with
      | EmptyString => None
      | String _ s' =>
          match exec p s' with
          | Some (i, n) => Some (S i, n)
          | None => None
          end
      end
  end.
Proof. now destruct s. Qed.

Lemma exec_suffix (p : string) (d : ascii) :
  isDigit d = true ->
  exec panoPattern (p ++ panoSuffix d) = Some (String.length p, 2%nat).
Proof.
  intros Hd. induction p as [|c p IH]; rewrite exec_eq.
  - cbn [append String.length]. now rewrite (matchHere_suffix d Hd).
  - cbn [append String.length]. now rewrite matchHere_longer, IH.
Qed.

Lemma exec_inv (s : string) (i n : nat) :
  exec panoPattern s = Some (i, n) ->
  exists p d, isDigit d = true /\ s = p ++ panoSuffix d.
Proof.
  revert i n. induction s as [|c s IH]; intros i n; rewrite exec_eq.
  - destruct (matchHere panoPattern EmptyString) as [m|] eqn:E;
      [|discriminate].
    intros _. apply matchHere_inv in E. destruct E as (d & _ & E & _).
    discriminate.
  - destruct (matchHere panoPattern (String c s)) as [m|] eqn:E.
    + intros _. apply matchHere_inv in E. destruct E as (d & Hd & E & _).
      exists EmptyString, d. now rewrite E.
    + destruct (exec panoPattern s) as [[j m]|] eqn:E'; [|discriminate].
      intros _. destruct (IH j m eq_refl) as (p & d & Hd & ->).
      now exists (String c p), d.
Qed.

Lemma substring_prefix (p q : string) :
  substring 0 (String.length p) (p ++ q) = p.
Proof.
  induction p as [|c p IH]; cbn.
  - now destruct q.
  - now rewrite IH.
Qed.

Lemma sliceFrom_all (p : string) (d : ascii) :
  sliceFrom (String.length p + 2) (p ++ panoSuffix d) = EmptyString.
Proof.
  induction p as [|c p IH]; cbn; [reflexivity|exact IH].
Qed.

Lemma append_empty_r (p : string) : p ++ EmptyString = p.
Proof.
  induction p as [|c p IH]; cbn; [reflexivity|now rewrite IH].
Qed.

Lemma replace_suffix (p : string) (d : ascii) :
  isDigit d = true ->
  replace panoPattern "" (p ++ panoSuffix d) = p.
Proof.
  intros Hd. unfold replace. rewrite (exec_suffix p d Hd).
  rewrite substring_prefix, sliceFrom_all. cbn [append].
  apply append_empty_r.
Qed.

Lemma replace_no_suffix (s : string) :
  (forall p d, isDigit d = true -> s <> p ++ panoSuffix d) ->
  replace panoPattern "" s = s.
Proof.
  intros Hs. unfold replace.
  destruct (exec panoPattern s) as [[i n]|] eqn:E; [|reflexivity].
  apply exec_inv in E. destruct E as (p & d & Hd & E).
  now elim (Hs p d Hd).
Qed.

End PanoId.

(** C4. For every input string, [formatPanoId] (of [page.tsx] and of
    [part_000] alike) returns the input without its last two characters
    when these are an underscore followed by a digit, and returns the
    input unchanged when it does not end in an underscore followed by a
    digit. *)
Theorem formatPanoId_strips_suffix (rawId : string) :
  (forall p d, isDigit d = true -> rawId = p ++ panoSuffix d ->
     Page.formatPanoId rawId = p /\ Part000.formatPanoId rawId = p)
  /\
  ((forall p d, isDigit d = true -> rawId <> p ++ panoSuffix d) ->
     Page.formatPanoId rawId = rawId /\ Part000.formatPanoId rawId = rawId).
Proof.
  split.
  - intros p d Hd ->. split; apply (replace_suffix p d Hd).
  - intros Hs. split; apply (replace_no_suffix rawId Hs).
Qed.

Lemma formatPanoId_strips_suffix_witness :
  (Page.formatPanoId "CAoSLEFGMVFpcE1fX2_3" = "CAoSLEFGMVFpcE1fX2"
   /\ Part000.formatPanoId "CAoSLEFGMVFpcE1fX2_3" = "CAoSLEFGMVFpcE1fX2")
  /\ (Page.formatPanoId "" = "" /\ Part000.formatPanoId "" = "").
Proof.
  split.
  - apply (proj1 (formatPanoId_strips_suffix "CAoSLEFGMVFpcE1fX2_3")
             "CAoSLEFGMVFpcE1fX2" "3"%char); reflexivity.
  - apply (proj2 (formatPanoId_strips_suffix "")).
    intros p d _. destruct p; discriminate.
Defined.

(** *** Choosing an image *)

Section ImageChange.
Variable engine : Engine.

Lemma firstFile_present (e : ChangeEvent) (file : File) (rest : list File) :
  files e = Some (file :: rest) -> Page.firstFile e = Value file.
Proof. unfold Page.firstFile. now intros ->. Qed.

Lemma firstFile_absent (e : ChangeEvent) :
  files e = None \/ files e = Some [] -> Page.firstFile e = Undefined.
Proof. unfold Page.firstFile. now intros [-> | ->]. Qed.

(** The two revisions have the same [handleImageChange]. *)
Lemma handleImageChange_same (e : ChangeEvent) :
  Part000.handleImageChange engine e = Page.handleImageChange engine e.
Proof. reflexivity. Qed.

End ImageChange.

(** C6. When the change event carries a file, [handleImageChange] leaves
    the result set, the selected result and the error message cleared
    ([null]), the selected image set to the new file and the preview URL
    set to the object URL of the new file; the other cells keep their
    values. This is the state any later submission starts from: a
    submission in it sends the new file, and sends it from a state whose
    result set and selection are still cleared. *)
Theorem handleImageChange_clears
    (engine : Engine) (e : ChangeEvent) (file : File) (rest : list File)
    (s : State) :
  files e = Some (file :: rest) ->
  let s' := run (Page.handleImageChange engine e) s in
  (apiResponse s' = None /\ selectedResult s' = Null /\ errorMsg s' = None
   /\ selectedImage s' = Some file
   /\ previewUrl s' = Some (createObjectURL engine file)
   /\ isLoading s' = isLoading s /\ viewMode s' = viewMode s)
  /\ run (Part000.handleImageChange engine e) s = s'
  /\ exists s1,
       Page.handleSubmit_start s' = Some (queryRequest file, s1)
       /\ apiResponse s1 = None /\ selectedResult s1 = Null /\ errorMsg s1 = None.
Proof.
  intros Hfiles s'. subst s'.
  rewrite (handleImageChange_same engine e).
  unfold Page.handleImageChange. rewrite (firstFile_present e file rest Hfiles).
  cbn. repeat split; try reflexivity.
  eexists. repeat split; reflexivity.
Qed.

Lemma handleImageChange_clears_witness :
  let e := {| files := Some [otherFile] |} in
  let s' := run (Page.handleImageChange sampleEngine e) answeredState in
  (apiResponse s' = None /\ selectedResult s' = Null /\ errorMsg s' = None
   /\ selectedImage s' = Some otherFile
   /\ previewUrl s' = Some "blob:other.png"
   /\ isLoading s' = false /\ viewMode s' = streetview)
  /\ run (Part000.handleImageChange sampleEngine e) answeredState = s'
  /\ exists s1,
       Page.handleSubmit_start s' = Some (queryRequest otherFile, s1)
       /\ apiResponse s1 = None /\ selectedResult s1 = Null /\ errorMsg s1 = None.
Proof.
  exact (handleImageChange_clears sampleEngine {| files := Some [otherFile] |}
           otherFile [] answeredState eq_refl).
Defined.

(** C10. When the change event carries no file (no file list, or an empty
    one), [handleImageChange] changes nothing: the state after it is the
    state before it, in every cell. *)
Theorem handleImageChange_without_file
    (engine : Engine) (e : ChangeEvent) (s : State) :
  files e = None \/ files e = Some [] ->
  run (Page.handleImageChange engine e) s = s
  /\ run (Part000.handleImageChange engine e) s = s.
Proof.
  intros Hfiles. rewrite (handleImageChange_same engine e).
  unfold Page.handleImageChange. rewrite (firstFile_absent e Hfiles).
  now split.
Qed.

Lemma handleImageChange_without_file_witness :
  run (Page.handleImageChange sampleEngine {| files := Some [] |}) answeredState
    = answeredState
  /\ run (Part000.handleImageChange sampleEngine {| files := Some [] |}) answeredState
    = answeredState.
Proof.
  exact (handleImageChange_without_file sampleEngine {| files := Some [] |}
           answeredState (or_intror eq_refl)).
Defined.

(** *** Submitting a query *)

Section Submit.
Variable engine : Engine.

(** The two revisions send the same request from the same state. *)
Lemma handleSubmit_start_same (s : State) :
  Part000.handleSubmit_start s = Page.handleSubmit_start s.
Proof. reflexivity. Qed.

Lemma handleSubmit_start_none (s : State) :
  selectedImage s = None -> Page.handleSubmit_start s = None.
Proof. unfold Page.handleSubmit_start. now intros ->. Qed.

Lemma handleSubmit_start_some (s : State) (image : File) :
  selectedImage s = Some image ->
  Page.handleSubmit_start s
  = Some (queryRequest image, run (bind (setIsLoading true) (fun _ => setErrorMsg None)) s).
Proof. unfold Page.handleSubmit_start. now intros ->. Qed.

Lemma failureMessage_nonempty (status : Z) (props : list (string * JsValue)) :
  lookup props "detail" = JUndefined
  \/ (exists d, lookup props "detail" = JString d) ->
  failureMessage engine status props <> "".
Proof.
  unfold failureMessage, orValue.
  intros [-> | [d ->]]; cbn [truthyValue toString]; [discriminate|].
  destruct d as [|c d]; cbn [truthyString toString]; discriminate.
Qed.

Lemma settle_failure_page (status : Z) (props : list (string * JsValue)) (s : State) :
  run (Page.handleSubmit_settle engine (inr (Failure status (inr (JObject props))))) s
  = failedWith (failureMessage engine status props) s.
Proof. reflexivity. Qed.

Lemma settle_failure_part000 (status : Z) (props : list (string * JsValue)) (s : State) :
  run (Part000.handleSubmit_settle engine (inr (Failure status (inr (JObject props))))) s
  = failedWith (failureMessage engine status props) s.
Proof. reflexivity. Qed.

Lemma settle_success_page (status : Z) (data : GeomatchResponse) (s : State) :
  run (Page.handleSubmit_settle engine (inr (Success status (inr data)))) s
  = {| selectedImage := selectedImage s; previewUrl := previewUrl s;
       isLoading := false; apiResponse := Some data;
       selectedResult := index (results data) 0; errorMsg := errorMsg s;
       viewMode := viewMode s |}.
Proof. reflexivity. Qed.

Lemma settle_success_part000 (status : Z) (data : GeomatchResponse) (s : State) :
  run (Part000.handleSubmit_settle engine (inr (Success status (inr data)))) s
  = {| selectedImage := selectedImage s; previewUrl := previewUrl s;
       isLoading := false; apiResponse := Some data;
       selectedResult :=
         match results data with
         | r :: _ => Value r
         | [] => selectedResult s
         end;
       errorMsg := errorMsg s; viewMode := viewMode s |}.
Proof. destruct data as [n [|r rest]]; reflexivity. Qed.

Lemma handleSubmit_page_eq (fetch : FetchRequest -> Exc Response)
    (s : State) (image : File) :
  selectedImage s = Some image ->
  Page.handleSubmit engine fetch s
  = run (Page.handleSubmit_settle engine (fetch (queryRequest image)))
        (run (bind (setIsLoading true) (fun _ => setErrorMsg None)) s).
Proof.
  intros H. unfold Page.handleSubmit. now rewrite (handleSubmit_start_some s image H).
Qed.

Lemma handleSubmit_part000_eq (fetch : FetchRequest -> Exc Response)
    (s : State) (image : File) :
  selectedImage s = Some image ->
  Part000.handleSubmit engine fetch s
  = run (Part000.handleSubmit_settle engine (fetch (queryRequest image)))
        (run (bind (setIsLoading true) (fun _ => setErrorMsg None)) s).
Proof.
  intros H. unfold Part000.handleSubmit.
  rewrite handleSubmit_start_same. now rewrite (handleSubmit_start_some s image H).
Qed.

End Submit.

(** *** The request forwarder *)

Section JsonBody.

Lemma jsonValue_detailObject (d : string) :
  Route.jsonValue (Route.detailObject d) = JObject [("detail", JString d)].
Proof. reflexivity. Qed.

(** [JSON.stringify] writes a plain value as it is. *)
Lemma jsonValue_plain : forall v, Route.plainJson v = true -> Route.jsonValue v = v.
Proof.
  fix IH 1. intros v.
  destruct v as [ | | b | x | s | elems | props];
    cbn [Route.plainJson Route.jsonValue]; try reflexivity; try discriminate.
  - unfold Route.plainNumber, Route.jsonNumber. intros H.
    apply andb_true_iff in H as [H1 H2].
    apply negb_true_iff in H1. apply negb_true_iff in H2. now rewrite H1, H2.
  - intros H. f_equal. revert elems H. fix IHl 1.
    intros [|e l]; [reflexivity|]. intros H.
    apply andb_true_iff in H as [He Hl].
    rewrite (IH e He). f_equal. exact (IHl l Hl).
  - intros H. f_equal. revert props H. fix IHl 1.
    intros [|[k e] l]; [reflexivity|]. intros H.
    apply andb_true_iff in H as [He Hl].
    rewrite (IHl l Hl). pose proof (IH e He) as Ee. clear IH IHl.
    destruct e; try discriminate He; now rewrite Ee.
Qed.

Lemma acceptsBody_iff (status : Z) :
  Route.acceptsBody status = true
  <-> (200 <= status <= 599)%Z
      /\ status <> 204%Z /\ status <> 205%Z /\ status <> 304%Z.
Proof.
  unfold Route.acceptsBody, Route.nullBodyStatus.
  rewrite !andb_true_iff, negb_true_iff, !orb_false_iff, !Z.leb_le, !Z.eqb_neq.
  lia.
Qed.

Lemma NextResponse_json_accepted (body : JsValue) (status : Z) :
  body <> JUndefined -> Route.acceptsBody status = true ->
  Route.NextResponse_json body (Some status) = inr (Route.NextResponse_make body status).
Proof.
  unfold Route.NextResponse_json, Route.acceptsBody. intros Hbody H.
  apply andb_true_iff in H as [Hrange Hnull]. apply negb_true_iff in Hnull.
  rewrite Hrange, Hnull. cbn. destruct body; try reflexivity. now elim Hbody.
Qed.

Lemma NextResponse_json_refused (body : JsValue) (status : Z) :
  Route.acceptsBody status = false ->
  exists error, Route.NextResponse_json body (Some status) = inl error.
Proof.
  unfold Route.NextResponse_json, Route.acceptsBody. intros H.
  destruct body; try (eexists; reflexivity);
    destruct ((200 <=? status)%Z && (status <=? 599)%Z); cbn in *;
    try (eexists; reflexivity);
    apply negb_false_iff in H; rewrite H; eexists; reflexivity.
Qed.

Lemma NextResponse_json_default (body : JsValue) :
  body <> JUndefined ->
  Route.NextResponse_json body None = inr (Route.NextResponse_make body 200%Z).
Proof.
  intros Hbody. unfold Route.NextResponse_json. cbn.
  destruct body; try reflexivity. now elim Hbody.
Qed.

End JsonBody.

Section Forwarder.
Variable env : Env.
Variable fetch : Route.Backend.
Variable request : Route.Request.

Lemma POST_formData_throws (e : JsThrown) :
  Route.formData request = inl e ->
  Route.POST env fetch request = internalError.
Proof. unfold Route.POST. now intros ->. Qed.

Lemma POST_fetch_throws (fd : FormData) (e : JsThrown) :
  Route.formData request = inr fd ->
  fetch (Route.backendRequest env request fd) = inl e ->
  Route.POST env fetch request = internalError.
Proof. unfold Route.POST. intros -> H. cbn. now rewrite H. Qed.

Lemma POST_text_throws (fd : FormData) (r : Route.BackendResponse) (e : JsThrown) :
  Route.formData request = inr fd ->
  fetch (Route.backendRequest env request fd) = inr r ->
  okStatus (Route.status r) = false ->
  Route.text r = inl e ->
  Route.POST env fetch request = internalError.
Proof.
  unfold Route.POST. intros -> H Hok Ht. cbn. rewrite H. cbn.
  now rewrite Hok, Ht.
Qed.

Lemma POST_json_throws (fd : FormData) (r : Route.BackendResponse) (e : JsThrown) :
  Route.formData request = inr fd ->
  fetch (Route.backendRequest env request fd) = inr r ->
  okStatus (Route.status r) = true ->
  Route.json r = inl e ->
  Route.POST env fetch request = internalError.
Proof.
  unfold Route.POST. intros -> H Hok Hj. cbn. rewrite H. cbn.
  now rewrite Hok, Hj.
Qed.

Lemma POST_backend_error (fd : FormData) (r : Route.BackendResponse) (t : string) :
  Route.formData request = inr fd ->
  fetch (Route.backendRequest env request fd) = inr r ->
  okStatus (Route.status r) = false ->
  Route.text r = inr t ->
  Route.acceptsBody (Route.status r) = true ->
  Route.POST env fetch request = targetError (Route.status r).
Proof.
  unfold Route.POST, Route.try_catch, Route.bindExc. intros Hfd H Hok Ht Hacc.
  rewrite Hfd. cbv beta iota. rewrite H. cbv beta iota. rewrite Hok.
  cbn [negb]. cbv beta iota. rewrite Ht. cbv beta iota.
  rewrite NextResponse_json_accepted; [reflexivity | discriminate | exact Hacc].
Qed.

Lemma POST_backend_refused (fd : FormData) (r : Route.BackendResponse) (t : string) :
  Route.formData request = inr fd ->
  fetch (Route.backendRequest env request fd) = inr r ->
  okStatus (Route.status r) = false ->
  Route.text r = inr t ->
  Route.acceptsBody (Route.status r) = false ->
  Route.POST env fetch request = internalError.
Proof.
  unfold Route.POST, Route.try_catch, Route.bindExc. intros Hfd H Hok Ht Hacc.
  rewrite Hfd. cbv beta iota. rewrite H. cbv beta iota. rewrite Hok.
  cbn [negb]. cbv beta iota. rewrite Ht. cbv beta iota.
  destruct (NextResponse_json_refused
              (Route.detailObject ("Target Server Error: " ++ Z_to_string (Route.status r)))
              _ Hacc) as [error ->].
  reflexivity.
Qed.

Lemma POST_backend_success (fd : FormData) (r : Route.BackendResponse) (data : JsValue) :
  Route.formData request = inr fd ->
  fetch (Route.backendRequest env request fd) = inr r ->
  okStatus (Route.status r) = true ->
  Route.json r = inr data ->
  data <> JUndefined ->
  Route.POST env fetch request = Route.NextResponse_make data 200%Z.
Proof.
  unfold Route.POST, Route.try_catch, Route.bindExc. intros Hfd H Hok Hj Hdata.
  rewrite Hfd. cbv beta iota. rewrite H. cbv beta iota. rewrite Hok.
  cbn [negb]. cbv beta iota. rewrite Hj. cbv beta iota.
  now rewrite (NextResponse_json_default data Hdata).
Qed.

Lemma POST_backend_undefined (fd : FormData) (r : Route.BackendResponse) :
  Route.formData request = inr fd ->
  fetch (Route.backendRequest env request fd) = inr r ->
  okStatus (Route.status r) = true ->
  Route.json r = inr JUndefined ->
  Route.POST env fetch request = internalError.
Proof.
  unfold Route.POST. intros -> H Hok Hj. cbn. rewrite H. cbn.
  now rewrite Hok, Hj.
Qed.

(** The three responses the handler can give. *)
Lemma POST_cases :
  Route.POST env fetch request = internalError
  \/ (exists status, okStatus status = false
        /\ Route.POST env fetch request = targetError status)
  \/ (exists data, Route.POST env fetch request = Route.NextResponse_make data 200%Z).
Proof.
  destruct (Route.formData request) as [e|fd] eqn:Hfd;
    [left; exact (POST_formData_throws e Hfd)|].
  destruct (fetch (Route.backendRequest env request fd)) as [e|r] eqn:Hr;
    [left; exact (POST_fetch_throws fd e Hfd Hr)|].
  destruct (okStatus (Route.status r)) eqn:Hok.
  - destruct (Route.json r) as [e|data] eqn:Hj.
    + left. exact (POST_json_throws fd r e Hfd Hr Hok Hj).
    + assert (D : data = JUndefined \/ data <> JUndefined)
        by (destruct data; (now left) || (right; discriminate)).
      destruct D as [-> | Hdata].
      * left. exact (POST_backend_undefined fd r Hfd Hr Hok Hj).
      * right. right. exists data.
        exact (POST_backend_success fd r data Hfd Hr Hok Hj Hdata).
  - destruct (Route.text r) as [e|t] eqn:Ht.
    + left. exact (POST_text_throws fd r e Hfd Hr Hok Ht).
    + destruct (Route.acceptsBody (Route.status r)) eqn:Hacc.
      * right. left. exists (Route.status r). split; [exact Hok|].
        exact (POST_backend_error fd r t Hfd Hr Hok Ht Hacc).
      * left. exact (POST_backend_refused fd r t Hfd Hr Hok Ht Hacc).
Qed.

(** An error response of the handler carries an error object with a
    [detail] that is a string. *)
Lemma POST_error_body :
  okStatus (Route.nr_status (Route.POST env fetch request)) = false ->
  exists d, Route.nr_body (Route.POST env fetch request) = Route.detailObject d.
Proof.
  destruct POST_cases as [-> | [(status & _ & ->) | (data & ->)]]; cbn.
  - intros _. now eexists.
  - intros _. now eexists.
  - discriminate.
Qed.

Lemma topK_supplied (v : string) :
  Route.get (Route.searchParams request) "top_k" = Some v -> v <> "" ->
  Route.topK request = v.
Proof.
  unfold Route.topK, orString. intros -> Hv. now destruct v.
Qed.

Lemma topK_default :
  Route.get (Route.searchParams request) "top_k" = None
  \/ Route.get (Route.searchParams request) "top_k" = Some "" ->
  Route.topK request = "30".
Proof.
  unfold Route.topK, orString. now intros [-> | ->].
Qed.

End Forwarder.

(** C5, as the claim states it, fails in two ways. A backend status that
    is not a success is not always relayed: for 304 (and for a status
    above 599) [NextResponse.json] throws inside the [try] block and the
    handler answers 500. And a success body is not always returned
    unchanged: a number beyond the range of a double, parsed as
    [Infinity], is answered as [null]. *)
Lemma POST_relays_counterexample :
  (Route.status notModifiedResponse = 304%Z
   /\ okStatus (Route.status notModifiedResponse) = false
   /\ Route.text notModifiedResponse = inr ""
   /\ Route.POST envWithoutMapboxToken (fun _ => inr notModifiedResponse)
        (uploadRequest []) = internalError
   /\ Route.nr_status
        (Route.POST envWithoutMapboxToken (fun _ => inr notModifiedResponse)
           (uploadRequest [])) = 500%Z)
  /\ (Route.nr_status
        (Route.POST envWithoutMapboxToken
           (fun _ => inr {| Route.status := 999%Z;
                            Route.text := inr "";
                            Route.json := inl (ErrorObject "Unexpected end of JSON input") |})
           (uploadRequest [])) = 500%Z)
  /\ (okStatus (Route.status overflowResponse) = true
      /\ Route.json overflowResponse = inr (JNumber PrimFloat.infinity)
      /\ Route.nr_body
           (Route.POST envWithoutMapboxToken (fun _ => inr overflowResponse)
              (uploadRequest [])) = JNull).
Proof. repeat split. Qed.

(** C5, amended. For every run of the proxy's [POST] handler: when the
    backend answers with a status that is not a success, that
    [NextResponse.json] accepts (200 to 599, other than 204, 205 and 304),
    and no step throws, the handler returns the error object
    [{ detail: "Target Server Error: <status>" }] with the backend's
    status; when a step throws (reading the form data, the call of the
    backend, reading the body as text or as JSON, or [NextResponse.json]
    refusing the status), it returns the error object
    [{ detail: "Internal Server Proxy Error" }] with status 500; and when
    the backend answers with a success status and a JSON body, it returns
    that body as [JSON.stringify] writes it, with status 200: unchanged
    when its numbers are finite and not negative zero. *)
Theorem POST_relays (env : Env) (fetch : Route.Backend) (request : Route.Request) :
  let response := Route.POST env fetch request in
  (forall e, Route.formData request = inl e -> response = internalError)
  /\ (forall fd, Route.formData request = inr fd ->
      (forall e, fetch (Route.backendRequest env request fd) = inl e ->
         response = internalError)
      /\ (forall r, fetch (Route.backendRequest env request fd) = inr r ->
          (okStatus (Route.status r) = false ->
             (forall e, Route.text r = inl e -> response = internalError)
             /\ (forall t, Route.text r = inr t ->
                   ((200 <= Route.status r <= 599)%Z /\ Route.status r <> 304%Z ->
                      Route.nr_status response = Route.status r
                      /\ Route.nr_body response
                         = JObject [("detail",
                                     JString ("Target Server Error: "
                                              ++ Z_to_string (Route.status r)))])
                   /\ ((Route.status r < 200)%Z \/ (599 < Route.status r)%Z
                       \/ Route.status r = 304%Z ->
                       response = internalError)))
          /\ (okStatus (Route.status r) = true ->
             (forall e, Route.json r = inl e -> response = internalError)
             /\ (forall data, Route.json r = inr data -> data <> JUndefined ->
                   Route.nr_status response = 200%Z
                   /\ Route.nr_body response = Route.jsonValue data
                   /\ (Route.plainJson data = true -> Route.nr_body response = data)
                   /\ (forall x, data = JNumber x ->
                         PrimFloat.is_nan x || PrimFloat.is_infinity x = true ->
                         Route.nr_body response = JNull)
                   /\ (data = JNumber PrimFloat.neg_zero ->
                         Route.nr_body response = JNumber 0%float)))))
  /\ internalError
     = {| Route.nr_status := 500%Z;
          Route.nr_body := JObject [("detail", JString "Internal Server Proxy Error")] |}.
Proof.
  intros response. subst response. split; [|split; [|reflexivity]].
  - intros e. apply POST_formData_throws.
  - intros fd Hfd. split.
    + intros e. now apply POST_fetch_throws.
    + intros r Hr. split; intros Hok; split.
      * intros e. now apply (POST_text_throws env fetch request fd r).
      * intros t Ht. split.
        -- intros [Hrange H304].
           assert (Hacc : Route.acceptsBody (Route.status r) = true).
           { apply acceptsBody_iff. unfold okStatus in Hok.
             apply andb_false_iff in Hok. rewrite !Z.leb_gt in Hok. lia. }
           now rewrite (POST_backend_error env fetch request fd r t Hfd Hr Hok Ht Hacc).
        -- intros Hout.
           assert (Hacc : Route.acceptsBody (Route.status r) = false).
           { destruct (Route.acceptsBody (Route.status r)) eqn:E; [|reflexivity].
             apply acceptsBody_iff in E. lia. }
           exact (POST_backend_refused env fetch request fd r t Hfd Hr Hok Ht Hacc).
      * intros e. now apply (POST_json_throws env fetch request fd r).
      * intros data Hj Hdata.
        rewrite (POST_backend_success env fetch request fd r data Hfd Hr Hok Hj Hdata).
        split; [reflexivity|]. split; [reflexivity|].
        split; [intros Hplain; cbn; now apply jsonValue_plain|].
        split.
        -- intros x -> Hx. cbn. unfold Route.jsonNumber. now rewrite Hx.
        -- intros ->. reflexivity.
Qed.

Lemma POST_relays_witness :
  (Route.nr_status (Route.POST envWithoutMapboxToken unavailableBackend (uploadRequest []))
     = 503%Z
   /\ Route.nr_body (Route.POST envWithoutMapboxToken unavailableBackend (uploadRequest []))
     = JObject [("detail", JString "Target Server Error: 503")])
  /\ Route.POST envWithoutMapboxToken unreachableBackend (uploadRequest []) = internalError
  /\ Route.nr_body (Route.POST envWithoutMapboxToken emptyBackend (uploadRequest []))
     = JObject [("count", JNumber 0%float); ("results", JArray [])].
Proof.
  split; [|split].
  - refine (proj1 (proj2 (proj1 (proj2 (proj1 (proj2
      (POST_relays envWithoutMapboxToken unavailableBackend (uploadRequest [])))
      _ eq_refl) _ eq_refl) eq_refl) "Service Unavailable" eq_refl) _).
    cbn. split; [lia | discriminate].
  - exact (proj1 (proj1 (proj2
      (POST_relays envWithoutMapboxToken unreachableBackend (uploadRequest [])))
      _ eq_refl) (ErrorObject "fetch failed") eq_refl).
  - refine (proj1 (proj2 (proj2 (proj2 (proj2 (proj2 (proj1 (proj2
      (POST_relays envWithoutMapboxToken emptyBackend (uploadRequest [])))
      _ eq_refl) _ eq_refl) eq_refl) _ eq_refl _))) eq_refl).
    discriminate.
Defined.

(** *** What the backend is sent *)

Section QueryReading.

Lemma string_app_assoc (a b c : string) : (a ++ b) ++ c = a ++ b ++ c.
Proof. induction a as [|x a IH]; cbn; [reflexivity|now rewrite IH]. Qed.

Lemma allChars_app (p : ascii -> bool) (a b : string) :
  Route.allChars p (a ++ b) = Route.allChars p a && Route.allChars p b.
Proof.
  induction a as [|x a IH]; cbn; [reflexivity|].
  now rewrite IH, andb_assoc.
Qed.

Lemma allChars_weaken (p q : ascii -> bool) (s : string) :
  (forall c, p c = true -> q c = true) ->
  Route.allChars p s = true -> Route.allChars q s = true.
Proof.
  intros Hpq. induction s as [|x s IH]; cbn; [reflexivity|].
  intros H. apply andb_true_iff in H as [Hx Hs].
  now rewrite (Hpq x Hx), (IH Hs).
Qed.

Lemma plainChar_iff (c : ascii) :
  Route.plainChar c = true
  <-> (33 <= nat_of_ascii c <= 126)%nat
      /\ c <> "#"%char /\ c <> "&"%char /\ c <> "+"%char /\ c <> "%"%char.
Proof.
  unfold Route.plainChar.
  rewrite !andb_true_iff, !negb_true_iff, !Nat.leb_le, !Ascii.eqb_neq. tauto.
Qed.

Lemma notQueryOrFragment_iff (c : ascii) :
  Route.notQueryOrFragment c = true <-> c <> "?"%char /\ c <> "#"%char.
Proof.
  unfold Route.notQueryOrFragment.
  rewrite andb_true_iff, !negb_true_iff, !Ascii.eqb_neq. tauto.
Qed.

(** A plain character is none of the characters the reading of a URL
    gives a meaning to. *)
Lemma plainChar_not (c x : ascii) :
  Route.plainChar c = true ->
  Route.plainChar x = false ->
  negb (Ascii.eqb c x) = true.
Proof.
  intros Hc Hx. apply negb_true_iff, Ascii.eqb_neq. intros ->. congruence.
Qed.

Lemma plainChar_not_space (c : ascii) :
  Route.plainChar c = true -> negb (Route.isC0OrSpace c) = true.
Proof.
  intros H. apply plainChar_iff in H as [[H _] _].
  unfold Route.isC0OrSpace. apply negb_true_iff, Nat.leb_gt. lia.
Qed.

Lemma plainChar_not_tab (c : ascii) :
  Route.plainChar c = true -> negb (Route.isTabOrNewline c) = true.
Proof.
  intros H. apply plainChar_iff in H as [[H _] _].
  unfold Route.isTabOrNewline.
  rewrite negb_true_iff, !orb_false_iff, !Nat.eqb_neq. lia.
Qed.

Lemma trimStart_app (B R : string) (c : ascii) :
  Route.isC0OrSpace c = false ->
  exists B',
    Route.trimStart (B ++ String c R) = B' ++ String c R
    /\ forall p, Route.allChars p B = true -> Route.allChars p B' = true.
Proof.
  intros Hc. induction B as [|x B IH].
  - exists EmptyString. cbn. rewrite Hc. now split.
  - cbn [append Route.trimStart]. destruct (Route.isC0OrSpace x).
    + destruct IH as (B' & E & HB'). exists B'. split; [exact E|].
      intros p H. cbn in H. apply andb_true_iff in H as [_ H]. now apply HB'.
    + exists (String x B). now split.
Qed.

Lemma trimEnd_keep (T : string) :
  T <> EmptyString ->
  Route.allChars (fun c => negb (Route.isC0OrSpace c)) T = true ->
  Route.trimEnd T = T.
Proof.
  induction T as [|c T IH]; [now intros H|]. intros _ H.
  cbn in H. apply andb_true_iff in H as [Hc HT]. apply negb_true_iff in Hc.
  cbn [Route.trimEnd]. destruct T as [|c' T'].
  - cbn. now rewrite Hc.
  - rewrite (IH ltac:(discriminate) HT). reflexivity.
Qed.

Lemma trimEnd_app (X T : string) :
  T <> EmptyString ->
  Route.allChars (fun c => negb (Route.isC0OrSpace c)) T = true ->
  Route.trimEnd (X ++ T) = X ++ T.
Proof.
  intros HT Hall. induction X as [|x X IH].
  - now apply trimEnd_keep.
  - cbn [append Route.trimEnd]. rewrite IH.
    destruct (X ++ T) as [|c' r] eqn:E; [|reflexivity].
    destruct X; cbn in E; [now elim HT | discriminate].
Qed.

Lemma removeTabNewline_app (a b : string) :
  Route.removeTabNewline (a ++ b)
  = Route.removeTabNewline a ++ Route.removeTabNewline b.
Proof.
  induction a as [|x a IH]; cbn; [reflexivity|].
  destruct (Route.isTabOrNewline x); cbn; now rewrite IH.
Qed.

Lemma removeTabNewline_keep (s : string) :
  Route.allChars (fun c => negb (Route.isTabOrNewline c)) s = true ->
  Route.removeTabNewline s = s.
Proof.
  induction s as [|x s IH]; cbn; [reflexivity|]. intros H.
  apply andb_true_iff in H as [Hx Hs]. apply negb_true_iff in Hx.
  now rewrite Hx, (IH Hs).
Qed.

Lemma removeTabNewline_allChars (p : ascii -> bool) (s : string) :
  Route.allChars p s = true -> Route.allChars p (Route.removeTabNewline s) = true.
Proof.
  induction s as [|x s IH]; cbn; [reflexivity|]. intros H.
  apply andb_true_iff in H as [Hx Hs].
  destruct (Route.isTabOrNewline x); cbn; [now apply IH|].
  now rewrite Hx, (IH Hs).
Qed.

Lemma before_absent (c : ascii) (s : string) :
  Route.allChars (fun x => negb (Ascii.eqb x c)) s = true -> Route.before c s = s.
Proof.
  induction s as [|x s IH]; cbn; [reflexivity|]. intros H.
  apply andb_true_iff in H as [Hx Hs]. apply negb_true_iff in Hx.
  now rewrite Hx, (IH Hs).
Qed.

Lemma after_first (c : ascii) (X Y : string) :
  Route.allChars (fun x => negb (Ascii.eqb x c)) X = true ->
  Route.after c (X ++ String c Y) = Some Y.
Proof.
  induction X as [|x X IH]; cbn.
  - intros _. now rewrite Ascii.eqb_refl.
  - intros H. apply andb_true_iff in H as [Hx HX]. apply negb_true_iff in Hx.
    now rewrite Hx, (IH HX).
Qed.

Lemma splitOn_absent (c : ascii) (s : string) :
  Route.allChars (fun x => negb (Ascii.eqb x c)) s = true -> Route.splitOn c s = [s].
Proof.
  induction s as [|x s IH]; cbn; [reflexivity|]. intros H.
  apply andb_true_iff in H as [Hx Hs]. apply negb_true_iff in Hx.
  now rewrite Hx, (IH Hs).
Qed.

Lemma percentDecode_keep (s : string) :
  Route.allChars (fun x => negb (Ascii.eqb x "%")) s = true ->
  Route.percentDecode s = Some s.
Proof.
  induction s as [|x s IH]; cbn [Route.allChars Route.percentDecode]; [reflexivity|].
  intros H. apply andb_true_iff in H as [Hx Hs]. apply negb_true_iff in Hx.
  now rewrite Hx, (IH Hs).
Qed.

Lemma plusToSpace_keep (s : string) :
  Route.allChars (fun x => negb (Ascii.eqb x "+")) s = true ->
  Route.plusToSpace s = s.
Proof.
  induction s as [|x s IH]; cbn; [reflexivity|]. intros H.
  apply andb_true_iff in H as [Hx Hs]. apply negb_true_iff in Hx.
  now rewrite Hx, (IH Hs).
Qed.

(** The query [top_k=T] of a plain value is read as the one pair
    [(top_k, T)]. *)
Lemma parseQuery_top_k (T : string) :
  Route.allChars Route.plainChar T = true ->
  Route.parseQuery ("top_k=" ++ T) = Some [("top_k", T)].
Proof.
  intros HT. unfold Route.parseQuery.
  assert (Hamp : Route.allChars (fun x => negb (Ascii.eqb x "&")) ("top_k=" ++ T) = true).
  { rewrite allChars_app. apply andb_true_iff. split; [reflexivity|].
    revert HT. apply allChars_weaken. intros c Hc. now apply plainChar_not. }
  rewrite (splitOn_absent "&" _ Hamp).
  cbn [append Route.parsePairs]. unfold Route.parsePair.
  cbn [Route.before Route.after Ascii.eqb Bool.eqb].
  assert (Hplus : Route.plusToSpace T = T).
  { apply plusToSpace_keep. revert HT. apply allChars_weaken.
    intros c Hc. now apply plainChar_not. }
  assert (Hpct : Route.percentDecode T = Some T).
  { apply percentDecode_keep. revert HT. apply allChars_weaken.
    intros c Hc. now apply plainChar_not. }
  rewrite Hplus, Hpct. reflexivity.
Qed.

(** The URL [B/query?top_k=T], for an address [B] without [?] and [#] and
    a plain value [T] that is not empty, carries the one parameter
    [top_k = T]. *)
Lemma receivedParams_top_k (B T : string) :
  Route.allChars Route.notQueryOrFragment B = true ->
  T <> EmptyString ->
  Route.allChars Route.plainChar T = true ->
  Route.receivedParams (B ++ "/query?top_k=" ++ T) = Some [("top_k", T)].
Proof.
  intros HB HT Hplain. unfold Route.receivedParams, Route.urlQuery.
  assert (Hspace : Route.allChars (fun c => negb (Route.isC0OrSpace c)) T = true).
  { revert Hplain. apply allChars_weaken, plainChar_not_space. }
  assert (Htab : Route.allChars (fun c => negb (Route.isTabOrNewline c)) T = true).
  { revert Hplain. apply allChars_weaken, plainChar_not_tab. }
  assert (Hhash : Route.allChars (fun x => negb (Ascii.eqb x "#")) T = true).
  { revert Hplain. apply allChars_weaken. intros c Hc. now apply plainChar_not. }
  change (B ++ "/query?top_k=" ++ T) with (B ++ String "/" ("query?top_k=" ++ T)).
  destruct (trimStart_app B ("query?top_k=" ++ T) "/" eq_refl) as (B' & -> & HB').
  specialize (HB' _ HB).
  change (B' ++ String "/" ("query?top_k=" ++ T)) with (B' ++ "/query?top_k=" ++ T).
  rewrite <- (string_app_assoc B' "/query?top_k=" T).
  rewrite (trimEnd_app _ T HT Hspace).
  rewrite removeTabNewline_app, removeTabNewline_app.
  rewrite (removeTabNewline_keep T Htab).
  change (Route.removeTabNewline "/query?top_k=") with "/query?top_k=".
  pose proof (removeTabNewline_allChars _ B' HB') as HB''.
  set (B'' := Route.removeTabNewline B') in *.
  assert (HhashB : Route.allChars (fun x => negb (Ascii.eqb x "#")) B'' = true).
  { revert HB''. apply allChars_weaken. intros c Hc.
    apply notQueryOrFragment_iff in Hc. now apply negb_true_iff, Ascii.eqb_neq. }
  assert (HqB : Route.allChars (fun x => negb (Ascii.eqb x "?")) B'' = true).
  { revert HB''. apply allChars_weaken. intros c Hc.
    apply notQueryOrFragment_iff in Hc. now apply negb_true_iff, Ascii.eqb_neq. }
  rewrite before_absent.
  2:{ rewrite !allChars_app, HhashB, Hhash. reflexivity. }
  rewrite (string_app_assoc B'' "/query?top_k=" T).
  change (B'' ++ "/query?top_k=" ++ T)
    with (B'' ++ "/query" ++ String "?" ("top_k=" ++ T)).
  rewrite <- (string_app_assoc B'' "/query" (String "?" ("top_k=" ++ T))).
  rewrite after_first.
  2:{ rewrite allChars_app, HqB. reflexivity. }
  now apply parseQuery_top_k.
Qed.

End QueryReading.

(** C7, as the claim states it, fails in three ways. A request that
    supplies an empty [top_k] (the URL ends in [?top_k=]) has 30
    forwarded. A supplied value with a character that has a meaning in a
    URL is spliced into the backend URL as it is: for [?top_k=5%26x%3D1]
    the handler reads [5&x=1] and the backend is sent [top_k = 5] and a
    second parameter. And a backend address with a query of its own
    swallows the parameter: the backend is sent no [top_k] at all. *)
Lemma topK_empty_counterexample :
  (Route.get (Route.searchParams (uploadRequest [("top_k", "")])) "top_k" = Some ""
   /\ Route.forwardedTopK envWithoutMapboxToken (uploadRequest [("top_k", "")])
        [("image_file", sampleFile)]
      = Some (Some "30"))
  /\ (Route.get (Route.searchParams (uploadRequest [("top_k", "5&x=1")])) "top_k"
      = Some "5&x=1"
      /\ Route.forwardedTopK envWithoutMapboxToken (uploadRequest [("top_k", "5&x=1")])
           [("image_file", sampleFile)]
         = Some (Some "5")
      /\ Route.receivedParams
           (url (Route.backendRequest envWithoutMapboxToken
                   (uploadRequest [("top_k", "5&x=1")]) [("image_file", sampleFile)]))
         = Some [("top_k", "5"); ("x", "1")])
  /\ (Route.get (Route.searchParams (uploadRequest [("top_k", "5")])) "top_k" = Some "5"
      /\ Route.forwardedTopK envWithQueryInAddress (uploadRequest [("top_k", "5")])
           [("image_file", sampleFile)]
         = Some None).
Proof. repeat split. Qed.

(** C7, amended. For every request to the proxy's [POST] handler whose
    backend address has no [?] and no [#] in it, the [top_k] value
    forwarded to the backend, in the URL of the one call the handler
    makes, equals the request's (first) [top_k] query parameter when one
    is supplied, is not empty and is made of printable ASCII characters
    other than [#], [&], [+] and [%]; and it equals 30 when the parameter
    is absent or empty. The backend is then sent no other parameter. *)
Theorem topK_forwarded (env : Env) (fetch : Route.Backend) (request : Route.Request) :
  Route.allChars Route.notQueryOrFragment (Route.VPS_URL env) = true ->
  (forall v, Route.get (Route.searchParams request) "top_k" = Some v ->
     v <> "" -> Route.allChars Route.plainChar v = true ->
     forall fd,
       Route.forwardedTopK env request fd = Some (Some v)
       /\ Route.receivedParams (url (Route.backendRequest env request fd))
          = Some [("top_k", v)])
  /\ (Route.get (Route.searchParams request) "top_k" = None
      \/ Route.get (Route.searchParams request) "top_k" = Some "" ->
      forall fd,
        Route.forwardedTopK env request fd = Some (Some "30")
        /\ Route.receivedParams (url (Route.backendRequest env request fd))
           = Some [("top_k", "30")])
  /\ (forall fd fetch',
        Route.formData request = inr fd ->
        fetch' (Route.backendRequest env request fd)
        = fetch (Route.backendRequest env request fd) ->
        Route.POST env fetch' request = Route.POST env fetch request)
  /\ (forall c, Route.plainChar c = true
                <-> (33 <= nat_of_ascii c <= 126)%nat
                    /\ c <> "#"%char /\ c <> "&"%char /\ c <> "+"%char /\ c <> "%"%char)
  /\ (forall c, Route.notQueryOrFragment c = true <-> c <> "?"%char /\ c <> "#"%char).
Proof.
  intros Hbase. split; [|split; [|split; [|split]]].
  - intros v Hget Hne Hplain fd.
    assert (E : Route.receivedParams (url (Route.backendRequest env request fd))
                = Some [("top_k", v)]).
    { unfold Route.backendRequest. cbn [url].
      rewrite (topK_supplied request v Hget Hne).
      now apply receivedParams_top_k. }
    split; [|exact E]. unfold Route.forwardedTopK. now rewrite E.
  - intros Hget fd.
    assert (E : Route.receivedParams (url (Route.backendRequest env request fd))
                = Some [("top_k", "30")]).
    { unfold Route.backendRequest. cbn [url].
      rewrite (topK_default request Hget).
      apply receivedParams_top_k; [exact Hbase | discriminate | reflexivity]. }
    split; [|exact E]. unfold Route.forwardedTopK. now rewrite E.
  - intros fd fetch' Hfd H. unfold Route.POST. rewrite Hfd. cbn. now rewrite H.
  - exact plainChar_iff.
  - exact notQueryOrFragment_iff.
Qed.

Lemma topK_forwarded_witness :
  (forall fd,
     Route.forwardedTopK envWithoutMapboxToken
       (uploadRequest [("lang", "en"); ("top_k", "5"); ("top_k", "7")]) fd
     = Some (Some "5")
     /\ Route.receivedParams
          (url (Route.backendRequest envWithoutMapboxToken
                  (uploadRequest [("lang", "en"); ("top_k", "5"); ("top_k", "7")]) fd))
        = Some [("top_k", "5")])
  /\ (forall fd,
        Route.forwardedTopK envWithoutMapboxToken (uploadRequest [("lang", "en")]) fd
        = Some (Some "30")
        /\ Route.receivedParams
             (url (Route.backendRequest envWithoutMapboxToken
                     (uploadRequest [("lang", "en")]) fd))
           = Some [("top_k", "30")]).
Proof.
  split.
  - refine (proj1 (topK_forwarded envWithoutMapboxToken emptyBackend
                     (uploadRequest [("lang", "en"); ("top_k", "5"); ("top_k", "7")])
                     eq_refl) "5" eq_refl _ eq_refl).
    discriminate.
  - exact (proj1 (proj2 (topK_forwarded envWithoutMapboxToken emptyBackend
                           (uploadRequest [("lang", "en")]) eq_refl))
             (or_introl eq_refl)).
Defined.

(** *** The dashboard after a response *)

(** A response that is not a success and carries an error object
    [{ detail?: string }] leaves a message that is not empty, and nothing
    else changed but the loading flag, which is off. *)
Lemma handleSubmit_failure_errorObject
    (engine : Engine) (fetch : FetchRequest -> Exc Response)
    (s : State) (image : File) (status : Z) (errData : JsValue) :
  selectedImage s = Some image ->
  fetch (queryRequest image) = inr (Failure status (inr errData)) ->
  errorObject errData ->
  exists message,
    message <> ""
    /\ Page.handleSubmit engine fetch s = failedWith message s
    /\ Part000.handleSubmit engine fetch s = failedWith message s.
Proof.
  intros Himg Hfetch (props & -> & Hdetail).
  exists (failureMessage engine status props).
  rewrite (handleSubmit_page_eq engine fetch s image Himg).
  rewrite (handleSubmit_part000_eq engine fetch s image Himg).
  rewrite Hfetch, settle_failure_page, settle_failure_part000.
  repeat split; try reflexivity.
  now apply failureMessage_nonempty.
Qed.

(** The message shown under the button is the error message, when that
    is not empty. *)
Lemma errorBanner_failedWith (message : string) (s : State) :
  message <> "" -> Page.errorBanner (failedWith message s) = Some message.
Proof.
  unfold Page.errorBanner. cbn [errorMsg failedWith].
  destruct message as [|c m]; [now intros H; elim H | reflexivity].
Qed.

(** The error object of the forwarding endpoint is of that shape. *)
Lemma detailObject_errorObject (d : string) : errorObject (Route.detailObject d).
Proof.
  exists [("detail", JString d)]. split; [reflexivity|]. right. now exists d.
Qed.

(** Outside that shape the message can be empty: a [detail] that is an
    empty array is truthy and converts to the empty string, and then
    nothing is shown. No response of the forwarding endpoint is of this
    kind ([POST_error_body]). *)
Remark handleSubmit_failure_empty_array :
  errorMsg (Page.handleSubmit sampleEngine
              (fun _ => inr (Failure 502%Z (inr (JObject [("detail", JArray [])]))))
              readyState) = Some ""
  /\ Page.errorBanner (Page.handleSubmit sampleEngine
              (fun _ => inr (Failure 502%Z (inr (JObject [("detail", JArray [])]))))
              readyState) = None.
Proof. split; reflexivity. Qed.

(** C3. For every run of [handleSubmit] (of [page.tsx] and of [part_000])
    in which the forwarding endpoint, whatever the request it was given,
    the environment and the backend behind it, answers with a status that
    is not a success: the error message cell holds a message that is not
    empty, that message is the one shown under the button, the loading
    flag is off, and the stored result set, like every other cell, is as
    it was before the submission. *)
Theorem handleSubmit_failure_message
    (engine : Engine) (env : Env) (backend : Route.Backend)
    (request : Route.Request) (fetch : FetchRequest -> Exc Response)
    (s : State) (image : File) :
  selectedImage s = Some image ->
  okStatus (Route.nr_status (Route.POST env backend request)) = false ->
  fetch (queryRequest image) = inr (Route.delivered (Route.POST env backend request)) ->
  exists message,
    message <> ""
    /\ Page.handleSubmit engine fetch s = failedWith message s
    /\ Part000.handleSubmit engine fetch s = failedWith message s
    /\ errorMsg (Page.handleSubmit engine fetch s) = Some message
    /\ Page.errorBanner (Page.handleSubmit engine fetch s) = Some message
    /\ apiResponse (Page.handleSubmit engine fetch s) = apiResponse s
    /\ apiResponse (Part000.handleSubmit engine fetch s) = apiResponse s.
Proof.
  intros Himg Hstatus Hfetch.
  destruct (POST_error_body env backend request Hstatus) as [d Hd].
  unfold Route.delivered in Hfetch. rewrite Hd in Hfetch.
  destruct (handleSubmit_failure_errorObject engine fetch s image _ _
              Himg Hfetch (detailObject_errorObject d))
    as (message & Hne & Hpage & Hpart).
  exists message. rewrite Hpage, Hpart.
  repeat split; try reflexivity; try exact Hne.
  now apply errorBanner_failedWith.
Qed.

Lemma handleSubmit_failure_message_witness :
  exists message,
    message <> ""
    /\ Page.handleSubmit sampleEngine
         (fun _ => inr (Route.delivered
            (Route.POST envWithoutMapboxToken unavailableBackend (uploadRequest []))))
         answeredState
       = failedWith message answeredState
    /\ Part000.handleSubmit sampleEngine
         (fun _ => inr (Route.delivered
            (Route.POST envWithoutMapboxToken unavailableBackend (uploadRequest []))))
         answeredState
       = failedWith message answeredState
    /\ errorMsg (Page.handleSubmit sampleEngine
         (fun _ => inr (Route.delivered
            (Route.POST envWithoutMapboxToken unavailableBackend (uploadRequest []))))
         answeredState) = Some message
    /\ Page.errorBanner (Page.handleSubmit sampleEngine
         (fun _ => inr (Route.delivered
            (Route.POST envWithoutMapboxToken unavailableBackend (uploadRequest []))))
         answeredState) = Some message
    /\ apiResponse (Page.handleSubmit sampleEngine
         (fun _ => inr (Route.delivered
            (Route.POST envWithoutMapboxToken unavailableBackend (uploadRequest []))))
         answeredState) = Some sampleResponse
    /\ apiResponse (Part000.handleSubmit sampleEngine
         (fun _ => inr (Route.delivered
            (Route.POST envWithoutMapboxToken unavailableBackend (uploadRequest []))))
         answeredState) = Some sampleResponse.
Proof.
  exact (handleSubmit_failure_message sampleEngine envWithoutMapboxToken
           unavailableBackend (uploadRequest [])
           (fun _ => inr (Route.delivered
              (Route.POST envWithoutMapboxToken unavailableBackend (uploadRequest []))))
           answeredState sampleFile eq_refl eq_refl eq_refl).
Defined.

(** C1, as the claim states it, fails for a successful response with no
    results: after [handleSubmit] of [page.tsx] the selection cell holds
    [results[0]], which is [undefined], so nothing is selected. *)
Lemma handleSubmit_empty_counterexample :
  selectedResult
    (Page.handleSubmit sampleEngine
       (fun _ => inr (Success 200%Z (inr emptyResponse))) readyState)
  = Undefined
  /\ selection
       (Page.handleSubmit sampleEngine
          (fun _ => inr (Success 200%Z (inr emptyResponse))) readyState)
     = []
  /\ apiResponse
       (Page.handleSubmit sampleEngine
          (fun _ => inr (Success 200%Z (inr emptyResponse))) readyState)
     = Some emptyResponse.
Proof. repeat split. Qed.

(** C1, amended. For every successful backend response with at least one
    result, after [handleSubmit] (of [page.tsx] and of [part_000])
    completes, the response is the stored result set and the first element
    of its results list is the selected result. When the results list is
    empty, [page.tsx] stores [results[0]], which is [undefined]: no
    result is selected. *)
Theorem handleSubmit_selects_first
    (engine : Engine) (fetch : FetchRequest -> Exc Response)
    (s : State) (image : File) (status : Z) (data : GeomatchResponse) :
  selectedImage s = Some image ->
  fetch (queryRequest image) = inr (Success status (inr data)) ->
  let s' := Page.handleSubmit engine fetch s in
  let s'' := Part000.handleSubmit engine fetch s in
  apiResponse s' = Some data /\ apiResponse s'' = Some data
  /\ isLoading s' = false /\ isLoading s'' = false
  /\ selectedResult s' = index (results data) 0
  /\ (forall r rest, results data = r :: rest ->
        selectedResult s' = Value r /\ selection s' = [r]
        /\ selectedResult s'' = Value r /\ selection s'' = [r])
  /\ (results data = [] -> selectedResult s' = Undefined /\ selection s' = []).
Proof.
  intros Himg Hfetch s' s''. subst s' s''.
  rewrite (handleSubmit_page_eq engine fetch s image Himg).
  rewrite (handleSubmit_part000_eq engine fetch s image Himg).
  rewrite Hfetch, settle_success_page, settle_success_part000.
  unfold selection. cbn [apiResponse isLoading selectedResult].
  split; [reflexivity|]. split; [reflexivity|].
  split; [reflexivity|]. split; [reflexivity|].
  split; [reflexivity|]. split.
  - intros r rest ->. now repeat split.
  - intros ->. now split.
Qed.

Lemma handleSubmit_selects_first_witness :
  let s' := Page.handleSubmit sampleEngine
              (fun _ => inr (Success 200%Z (inr sampleResponse))) readyState in
  let s'' := Part000.handleSubmit sampleEngine
               (fun _ => inr (Success 200%Z (inr sampleResponse))) readyState in
  apiResponse s' = Some sampleResponse /\ apiResponse s'' = Some sampleResponse
  /\ isLoading s' = false /\ isLoading s'' = false
  /\ selectedResult s' = index (results sampleResponse) 0
  /\ (forall r rest, results sampleResponse = r :: rest ->
        selectedResult s' = Value r /\ selection s' = [r]
        /\ selectedResult s'' = Value r /\ selection s'' = [r])
  /\ (results sampleResponse = [] -> selectedResult s' = Undefined /\ selection s' = []).
Proof.
  exact (handleSubmit_selects_first sampleEngine
           (fun _ => inr (Success 200%Z (inr sampleResponse)))
           readyState sampleFile 200%Z sampleResponse eq_refl eq_refl).
Defined.

(** In [part_000] an empty results list leaves the selection cell as it
    was when the response arrived. *)
Lemma handleSubmit_part000_empty
    (engine : Engine) (fetch : FetchRequest -> Exc Response)
    (s : State) (image : File) (status : Z) (data : GeomatchResponse) :
  selectedImage s = Some image ->
  fetch (queryRequest image) = inr (Success status (inr data)) ->
  results data = [] ->
  selectedResult (Part000.handleSubmit engine fetch s) = selectedResult s.
Proof.
  intros Himg Hfetch Hempty.
  rewrite (handleSubmit_part000_eq engine fetch s image Himg).
  rewrite Hfetch, settle_success_part000. cbn [selectedResult].
  now rewrite Hempty.
Qed.

(** C2, as the claim states it, fails for a submission made while a
    result is selected: the state in which the request is sent still
    holds that selection. *)
Lemma handleSubmit_keeps_selection_counterexample :
  exists s1,
    Page.handleSubmit_start answeredState = Some (queryRequest sampleFile, s1)
    /\ selectedResult s1 = Value sampleResult
    /\ selection s1 = [sampleResult].
Proof. eexists. repeat split. Qed.

(** C2, amended. At most one MatchResult is selected at any time (the
    selection cell holds zero or one result), and the selection is cleared
    (set to [null]) when a new image is chosen via [handleImageChange].
    [handleSubmit] does not clear it: the selection held when a query is
    submitted is still held when the request is sent. *)
Theorem selection_at_most_one (engine : Engine) (s : State) :
  (List.length (selection s) <= 1)%nat
  /\ (forall e file rest, files e = Some (file :: rest) ->
        selectedResult (run (Page.handleImageChange engine e) s) = Null
        /\ selection (run (Page.handleImageChange engine e) s) = []
        /\ selection (run (Part000.handleImageChange engine e) s) = [])
  /\ (forall request s1, Page.handleSubmit_start s = Some (request, s1) ->
        selectedResult s1 = selectedResult s /\ selection s1 = selection s)
  /\ (forall request s1, Part000.handleSubmit_start s = Some (request, s1) ->
        selectedResult s1 = selectedResult s /\ selection s1 = selection s).
Proof.
  split; [|split; [|split]].
  - unfold selection. destruct (selectedResult s); cbn; lia.
  - intros e file rest Hfiles.
    rewrite (handleImageChange_same engine e).
    unfold Page.handleImageChange. rewrite (firstFile_present e file rest Hfiles).
    repeat split.
  - unfold Page.handleSubmit_start. intros request s1.
    destruct (selectedImage s); [|discriminate]. intros [= _ <-]. now split.
  - unfold Part000.handleSubmit_start. intros request s1.
    destruct (selectedImage s); [|discriminate]. intros [= _ <-]. now split.
Qed.

Lemma selection_at_most_one_witness :
  (List.length (selection answeredState) <= 1)%nat
  /\ selection (run (Page.handleImageChange sampleEngine {| files := Some [otherFile] |})
                   answeredState) = [].
Proof.
  split.
  - exact (proj1 (selection_at_most_one sampleEngine answeredState)).
  - exact (proj1 (proj2 (proj1 (proj2
             (selection_at_most_one sampleEngine answeredState))
             {| files := Some [otherFile] |} otherFile [] eq_refl))).
Defined.

(** *** The guards of a submission *)

(** C9, as the claim states it, fails while a request is pending: a file
    is selected, [handleSubmit] itself would send a request, and yet the
    Locate button is disabled, so that a click on it changes nothing. The
    selected file is not the only guard of the submit transition. *)
Lemma submit_guard_counterexample :
  selectedImage busyState = Some sampleFile
  /\ Page.handleSubmit_start busyState <> None
  /\ Page.locateDisabled busyState = true
  /\ (forall fetch, Page.clickLocate sampleEngine fetch busyState = busyState).
Proof. repeat split. discriminate. Qed.

(** C9, amended. Submitting without a selected file is a no-op: if no
    image is selected, [handleSubmit] returns at once, sends no request,
    and leaves every cell of the dashboard state as it was. This is the
    only guard inside [handleSubmit]: with a selected image it always
    turns the loading flag on, clears the error message and sends the
    request, whatever the other cells hold. The Locate button that calls
    it has a second guard: it is disabled when no image is selected and
    also while a request is loading, and a click on the disabled button
    changes nothing. *)
Theorem submit_guards
    (engine : Engine) (fetch : FetchRequest -> Exc Response) (s : State) :
  (selectedImage s = None ->
     Page.handleSubmit_start s = None
     /\ Page.handleSubmit engine fetch s = s
     /\ Part000.handleSubmit engine fetch s = s)
  /\ (forall image, selectedImage s = Some image ->
        exists s1,
          Page.handleSubmit_start s = Some (queryRequest image, s1)
          /\ isLoading s1 = true /\ errorMsg s1 = None
          /\ selectedImage s1 = selectedImage s /\ previewUrl s1 = previewUrl s
          /\ apiResponse s1 = apiResponse s /\ selectedResult s1 = selectedResult s
          /\ viewMode s1 = viewMode s)
  /\ (Page.locateDisabled s = true <-> isLoading s = true \/ selectedImage s = None)
  /\ (Page.locateDisabled s = true -> Page.clickLocate engine fetch s = s)
  /\ (Page.locateDisabled s = false ->
        Page.clickLocate engine fetch s = Page.handleSubmit engine fetch s).
Proof.
  split; [|split; [|split; [|split]]].
  - intros Himg.
    unfold Page.handleSubmit, Part000.handleSubmit.
    rewrite (handleSubmit_start_same s), (handleSubmit_start_none s Himg).
    now repeat split.
  - intros image Himg. rewrite (handleSubmit_start_some s image Himg).
    eexists. split; [reflexivity|]. now repeat split.
  - unfold Page.locateDisabled.
    destruct (isLoading s), (selectedImage s); cbn; split; intros H;
      try reflexivity; try discriminate; auto.
    destruct H; discriminate.
  - unfold Page.clickLocate. now intros ->.
  - unfold Page.clickLocate. now intros ->.
Qed.

Lemma submit_guards_witness :
  Page.handleSubmit_start initialState = None
  /\ Page.handleSubmit sampleEngine (fun _ => inl NonError) initialState = initialState
  /\ Part000.handleSubmit sampleEngine (fun _ => inl NonError) initialState = initialState.
Proof.
  exact (proj1 (submit_guards sampleEngine (fun _ => inl NonError) initialState) eq_refl).
Defined.

(** *** Missing keys *)

(** C8, as the claim states it, fails for both keys. Without a Mapbox
    token the map view renders the map component, handed the absent token
    as it is, and no error item. Without a Google Maps key, and before a
    result is selected, the panorama view renders the fallback text only. *)
Lemma missing_key_counterexample :
  (missing (NEXT_PUBLIC_MAPBOX_TOKEN envWithoutMapboxToken) = true
   /\ Page.leftPane envWithoutMapboxToken mapState
      = [Page.ViewToggle map;
         Page.MapboxMap (Page.mapView envWithoutMapboxToken mapState)]
   /\ Page.mapboxAccessToken (Page.mapView envWithoutMapboxToken mapState) = None
   /\ existsb Page.isErrorItem (Page.leftPane envWithoutMapboxToken mapState) = false)
  /\ (missing (NEXT_PUBLIC_GOOGLE_MAPS_KEY envWithoutGoogleKey) = true
      /\ Page.leftPane envWithoutGoogleKey readyState
         = [Page.ViewToggle streetview; Page.AwaitingTargetCoordinates]
      /\ existsb Page.isErrorItem (Page.leftPane envWithoutGoogleKey readyState) = false).
Proof. repeat split. Qed.

(** C8, amended. When the Google Maps key is missing from the environment
    (unset or empty) and the panorama view is active with a result
    selected, the interface renders the inline error
    [ERROR: MISSING GOOGLE MAPS KEY] in place of the panorama frame;
    without a selected result it renders the fallback text only. The map
    view has no check of the Mapbox token: the token is handed to the map
    component as it is, and the dashboard renders no error item of its own
    in that view. *)
Theorem missing_key_rendering (env : Env) (s : State) :
  (forall selected,
     viewMode s = streetview -> selectedResult s = Value selected ->
     missing (NEXT_PUBLIC_GOOGLE_MAPS_KEY env) = true ->
     Page.leftPane env s = [Page.ViewToggle streetview; Page.MissingGoogleMapsKey])
  /\ (viewMode s = streetview -> truthy (selectedResult s) = false ->
      Page.leftPane env s
      = [Page.ViewToggle streetview; Page.AwaitingTargetCoordinates])
  /\ (viewMode s = map ->
      existsb Page.isErrorItem (Page.leftPane env s) = false
      /\ In (Page.MapboxMap (Page.mapView env s)) (Page.leftPane env s)
      /\ Page.mapboxAccessToken (Page.mapView env s) = NEXT_PUBLIC_MAPBOX_TOKEN env).
Proof.
  split; [|split].
  - intros selected Hmode Hsel Hkey. unfold Page.leftPane.
    rewrite Hmode, Hsel. cbn [truthy negb app].
    unfold missing in Hkey.
    destruct (NEXT_PUBLIC_GOOGLE_MAPS_KEY env) as [key|]; [|reflexivity].
    now rewrite Hkey.
  - intros Hmode Hsel. unfold Page.leftPane. rewrite Hmode.
    destruct (selectedResult s); try discriminate; reflexivity.
  - intros Hmode. unfold Page.leftPane. rewrite Hmode.
    destruct (selectedResult s); cbn; repeat split; auto.
Qed.

Lemma missing_key_rendering_witness :
  Page.leftPane envWithoutGoogleKey answeredState
  = [Page.ViewToggle streetview; Page.MissingGoogleMapsKey].
Proof.
  exact (proj1 (missing_key_rendering envWithoutGoogleKey answeredState)
           sampleResult eq_refl eq_refl eq_refl).
Defined.

(** In [part_000] the key is tested first: without it the pane shows the
    error, with or without a selected result. *)
Lemma part000_missing_key (env : Env) (s : State) :
  missing (NEXT_PUBLIC_GOOGLE_MAPS_KEY env) = true ->
  Part000.leftPane env s = Part000.MissingGoogleMapsKey.
Proof.
  unfold missing, Part000.leftPane.
  destruct (NEXT_PUBLIC_GOOGLE_MAPS_KEY env) as [key|]; [|reflexivity].
  now intros ->.
Qed.

(* ====================================================================== *)
(** ** Further properties of the handlers                                   *)
(* ====================================================================== *)

Import Terms.

(** *** Every way a submission can end *)

Section Settle.
Variable engine : Engine.

Lemma start_is_pendingOf (s : State) :
  run (bind (setIsLoading true) (fun _ => setErrorMsg None)) s = pendingOf s.
Proof. reflexivity. Qed.

(** A settled [fetch] leaves either the state of the [catch] block, with
    some message, or, for a success with a parsed body, the stored
    response. *)
Lemma settle_page_cases (fetched : Exc Response) (s : State) :
  (exists message,
     Page.handleSubmit_settle engine fetched s = (inr tt, failedWith message s))
  \/ (exists status data,
        fetched = inr (Success status (inr data))
        /\ Page.handleSubmit_settle engine fetched s = (inr tt, answeredWith data s)).
Proof.
  destruct fetched as [e | [status [e | errData] | status [e | data]]].
  - left. now exists (thrownMessage e).
  - left. now exists (thrownMessage e).
  - left. destruct errData; eexists; reflexivity.
  - left. now exists (thrownMessage e).
  - right. now exists status, data.
Qed.

Lemma settle_part000_cases (fetched : Exc Response) (s : State) :
  (exists message,
     Part000.handleSubmit_settle engine fetched s = (inr tt, failedWith message s))
  \/ (exists status data result,
        fetched = inr (Success status (inr data))
        /\ Part000.handleSubmit_settle engine fetched s
           = (inr tt,
              {| selectedImage := selectedImage s; previewUrl := previewUrl s;
                 isLoading := false; apiResponse := Some data;
                 selectedResult := result; errorMsg := errorMsg s;
                 viewMode := viewMode s |})).
Proof.
  destruct fetched as [e | [status [e | errData] | status [e | data]]].
  - left. now exists (thrownMessage e).
  - left. now exists (thrownMessage e).
  - left. destruct errData; eexists; reflexivity.
  - left. now exists (thrownMessage e).
  - right. exists status, data. destruct data as [n [|r rest]]; eexists; split; reflexivity.
Qed.

(** A rejected [fetch] and a body that is not JSON both end in the
    [catch] block with the thrown value. *)
Lemma settle_thrown_page (fetched : Exc Response) (error : JsThrown) (s : State) :
  fetched = inl error
  \/ (exists status, fetched = inr (Failure status (inl error)))
  \/ (exists status, fetched = inr (Success status (inl error))) ->
  run (Page.handleSubmit_settle engine fetched) s = failedWith (thrownMessage error) s.
Proof. intros [-> | [[status ->] | [status ->]]]; reflexivity. Qed.

Lemma settle_thrown_part000 (fetched : Exc Response) (error : JsThrown) (s : State) :
  fetched = inl error
  \/ (exists status, fetched = inr (Failure status (inl error)))
  \/ (exists status, fetched = inr (Success status (inl error))) ->
  run (Part000.handleSubmit_settle engine fetched) s = failedWith (thrownMessage error) s.
Proof. intros [-> | [[status ->] | [status ->]]]; reflexivity. Qed.

End Settle.

(** X1. Whatever the forwarding path answers (a rejected [fetch], a body
    that is not JSON, an error response, a success), a run of
    [handleSubmit] with a selected image ends with the loading flag off
    and with the selected image, the preview URL and the view mode as
    they were, in both revisions. *)
Theorem handleSubmit_resets_loading
    (engine : Engine) (fetch : FetchRequest -> Exc Response)
    (s : State) (image : File) :
  selectedImage s = Some image ->
  (isLoading (Page.handleSubmit engine fetch s) = false
   /\ selectedImage (Page.handleSubmit engine fetch s) = Some image
   /\ previewUrl (Page.handleSubmit engine fetch s) = previewUrl s
   /\ viewMode (Page.handleSubmit engine fetch s) = viewMode s)
  /\ (isLoading (Part000.handleSubmit engine fetch s) = false
      /\ selectedImage (Part000.handleSubmit engine fetch s) = Some image
      /\ previewUrl (Part000.handleSubmit engine fetch s) = previewUrl s
      /\ viewMode (Part000.handleSubmit engine fetch s) = viewMode s).
Proof.
  intros Himg.
  rewrite (handleSubmit_page_eq engine fetch s image Himg).
  rewrite (handleSubmit_part000_eq engine fetch s image Himg).
  rewrite start_is_pendingOf. unfold run. split.
  - destruct (settle_page_cases engine (fetch (queryRequest image)) (pendingOf s))
      as [[m ->] | (st & data & _ & ->)]; cbn; now rewrite Himg.
  - destruct (settle_part000_cases engine (fetch (queryRequest image)) (pendingOf s))
      as [[m ->] | (st & data & r & _ & ->)]; cbn; now rewrite Himg.
Qed.

Lemma handleSubmit_resets_loading_witness :
  (isLoading (Page.handleSubmit sampleEngine (fun _ => inl NonError) busyState) = false
   /\ selectedImage (Page.handleSubmit sampleEngine (fun _ => inl NonError) busyState)
      = Some sampleFile
   /\ previewUrl (Page.handleSubmit sampleEngine (fun _ => inl NonError) busyState)
      = previewUrl busyState
   /\ viewMode (Page.handleSubmit sampleEngine (fun _ => inl NonError) busyState)
      = viewMode busyState)
  /\ (isLoading (Part000.handleSubmit sampleEngine (fun _ => inl NonError) busyState) = false
      /\ selectedImage (Part000.handleSubmit sampleEngine (fun _ => inl NonError) busyState)
         = Some sampleFile
      /\ previewUrl (Part000.handleSubmit sampleEngine (fun _ => inl NonError) busyState)
         = previewUrl busyState
      /\ viewMode (Part000.handleSubmit sampleEngine (fun _ => inl NonError) busyState)
         = viewMode busyState).
Proof.
  exact (handleSubmit_resets_loading sampleEngine (fun _ => inl NonError)
           busyState sampleFile eq_refl).
Defined.

(** X2. The part of [handleSubmit] that runs once [fetch] has settled
    never throws: whatever was fetched, the [catch] block absorbs it and
    the handler completes normally, in both revisions. *)
Theorem handleSubmit_settle_never_throws
    (engine : Engine) (fetched : Exc Response) (s : State) :
  fst (Page.handleSubmit_settle engine fetched s) = inr tt
  /\ fst (Part000.handleSubmit_settle engine fetched s) = inr tt.
Proof.
  split.
  - destruct (settle_page_cases engine fetched s)
      as [[m ->] | (st & data & _ & ->)]; reflexivity.
  - destruct (settle_part000_cases engine fetched s)
      as [[m ->] | (st & data & r & _ & ->)]; reflexivity.
Qed.

(** X3. When [fetch] rejects, or the body of the response (of an error
    response or of a success) cannot be read as JSON, the run ends with
    the message of the thrown error, or with [Connection failed] when
    what was thrown is not an [Error]; the stored result set and the
    selection are as they were before the submission. *)
Theorem handleSubmit_thrown
    (engine : Engine) (fetch : FetchRequest -> Exc Response)
    (s : State) (image : File) (error : JsThrown) :
  selectedImage s = Some image ->
  fetch (queryRequest image) = inl error
  \/ (exists status, fetch (queryRequest image) = inr (Failure status (inl error)))
  \/ (exists status, fetch (queryRequest image) = inr (Success status (inl error))) ->
  Page.handleSubmit engine fetch s = failedWith (thrownMessage error) s
  /\ Part000.handleSubmit engine fetch s = failedWith (thrownMessage error) s
  /\ errorMsg (Page.handleSubmit engine fetch s)
     = Some match error with
            | ErrorObject message => message
            | NonError => "Connection failed"
            end
  /\ apiResponse (Page.handleSubmit engine fetch s) = apiResponse s
  /\ selectedResult (Page.handleSubmit engine fetch s) = selectedResult s.
Proof.
  intros Himg Hthrown.
  rewrite (handleSubmit_page_eq engine fetch s image Himg).
  rewrite (handleSubmit_part000_eq engine fetch s image Himg).
  rewrite start_is_pendingOf.
  rewrite (settle_thrown_page engine _ error (pendingOf s) Hthrown).
  rewrite (settle_thrown_part000 engine _ error (pendingOf s) Hthrown).
  now repeat split.
Qed.

Lemma handleSubmit_thrown_witness :
  Page.handleSubmit sampleEngine (fun _ => inl (ErrorObject "Failed to fetch")) answeredState
  = failedWith "Failed to fetch" answeredState
  /\ Part000.handleSubmit sampleEngine (fun _ => inl (ErrorObject "Failed to fetch"))
       answeredState
     = failedWith "Failed to fetch" answeredState
  /\ errorMsg (Page.handleSubmit sampleEngine
                 (fun _ => inl (ErrorObject "Failed to fetch")) answeredState)
     = Some "Failed to fetch"
  /\ apiResponse (Page.handleSubmit sampleEngine
                    (fun _ => inl (ErrorObject "Failed to fetch")) answeredState)
     = apiResponse answeredState
  /\ selectedResult (Page.handleSubmit sampleEngine
                       (fun _ => inl (ErrorObject "Failed to fetch")) answeredState)
     = selectedResult answeredState.
Proof.
  exact (handleSubmit_thrown sampleEngine
           (fun _ => inl (ErrorObject "Failed to fetch"))
           answeredState sampleFile (ErrorObject "Failed to fetch")
           eq_refl (or_introl eq_refl)).
Defined.

(** X4. After a run of [handleSubmit] that received a success whose
    parsed body is of the declared type [GeomatchResponse] (an object
    with a [results] array), no error message is stored and none is
    shown, whatever message was stored before the submission: the message
    is cleared when the request is sent and the success path does not set
    one. A success body of another shape is not covered by this
    statement: reading [data.results[0]] can then throw into the [catch]
    block, which stores a message. *)
Theorem handleSubmit_success_clears_error
    (engine : Engine) (fetch : FetchRequest -> Exc Response)
    (s : State) (image : File) (status : Z) (data : GeomatchResponse) :
  selectedImage s = Some image ->
  fetch (queryRequest image) = inr (Success status (inr data)) ->
  errorMsg (Page.handleSubmit engine fetch s) = None
  /\ Page.errorBanner (Page.handleSubmit engine fetch s) = None
  /\ errorMsg (Part000.handleSubmit engine fetch s) = None
  /\ Page.errorBanner (Part000.handleSubmit engine fetch s) = None.
Proof.
  intros Himg Hfetch.
  rewrite (handleSubmit_page_eq engine fetch s image Himg).
  rewrite (handleSubmit_part000_eq engine fetch s image Himg).
  rewrite Hfetch, settle_success_page, settle_success_part000.
  now repeat split.
Qed.

Lemma handleSubmit_success_clears_error_witness :
  errorMsg (Page.handleSubmit sampleEngine
              (fun _ => inr (Success 200%Z (inr sampleResponse)))
              (failedWith "Target Server Error: 503" readyState)) = None
  /\ Page.errorBanner (Page.handleSubmit sampleEngine
              (fun _ => inr (Success 200%Z (inr sampleResponse)))
              (failedWith "Target Server Error: 503" readyState)) = None
  /\ errorMsg (Part000.handleSubmit sampleEngine
              (fun _ => inr (Success 200%Z (inr sampleResponse)))
              (failedWith "Target Server Error: 503" readyState)) = None
  /\ Page.errorBanner (Part000.handleSubmit sampleEngine
              (fun _ => inr (Success 200%Z (inr sampleResponse)))
              (failedWith "Target Server Error: 503" readyState)) = None.
Proof.
  exact (handleSubmit_success_clears_error sampleEngine
           (fun _ => inr (Success 200%Z (inr sampleResponse)))
           (failedWith "Target Server Error: 503" readyState)
           sampleFile 200%Z sampleResponse eq_refl eq_refl).
Defined.

(** X5. When an error response carries a JSON body whose [detail] is
    absent or falsy (no such property, the empty string, zero, [false],
    [null]; also every body that is a number, a string, a boolean or an
    array), the message stored and shown is [Error: <status>]. *)
Theorem handleSubmit_failure_fallback
    (engine : Engine) (fetch : FetchRequest -> Exc Response)
    (s : State) (image : File) (status : Z) (errData detail : JsValue) :
  selectedImage s = Some image ->
  fetch (queryRequest image) = inr (Failure status (inr errData)) ->
  get_detail engine errData = inr detail ->
  truthyValue detail = false ->
  Page.handleSubmit engine fetch s = failedWith ("Error: " ++ Z_to_string status) s
  /\ Part000.handleSubmit engine fetch s = failedWith ("Error: " ++ Z_to_string status) s
  /\ Page.errorBanner (Page.handleSubmit engine fetch s)
     = Some ("Error: " ++ Z_to_string status).
Proof.
  intros Himg Hfetch Hdetail Hfalsy.
  rewrite (handleSubmit_page_eq engine fetch s image Himg).
  rewrite (handleSubmit_part000_eq engine fetch s image Himg).
  rewrite Hfetch.
  unfold Page.handleSubmit_settle, Part000.handleSubmit_settle, run,
    try_catch_finally, bind, await, throw, newError, orValue.
  rewrite Hdetail, Hfalsy.
  now repeat split.
Qed.

Lemma handleSubmit_failure_fallback_witness :
  Page.handleSubmit sampleEngine
    (fun _ => inr (Failure 504%Z (inr (JObject [("error", JString "timeout")]))))
    readyState
  = failedWith "Error: 504" readyState
  /\ Part000.handleSubmit sampleEngine
       (fun _ => inr (Failure 504%Z (inr (JObject [("error", JString "timeout")]))))
       readyState
     = failedWith "Error: 504" readyState
  /\ Page.errorBanner
       (Page.handleSubmit sampleEngine
          (fun _ => inr (Failure 504%Z (inr (JObject [("error", JString "timeout")]))))
          readyState)
     = Some "Error: 504".
Proof.
  exact (handleSubmit_failure_fallback sampleEngine
           (fun _ => inr (Failure 504%Z (inr (JObject [("error", JString "timeout")]))))
           readyState sampleFile 504%Z (JObject [("error", JString "timeout")])
           JUndefined eq_refl eq_refl eq_refl eq_refl).
Defined.

(** X6. While a request is pending the interface cannot submit again:
    in the state in which [handleSubmit] sends its request the Locate
    button is disabled, a click on it changes nothing, the header reads
    [LOCATING...] and no error is shown; once the request has settled, in
    whatever way, the button is enabled again and the header reads
    [IDLE]. *)
Theorem locate_disabled_while_pending
    (engine : Engine) (s : State) (image : File) :
  selectedImage s = Some image ->
  Page.handleSubmit_start s = Some (queryRequest image, pendingOf s)
  /\ Page.locateDisabled (pendingOf s) = true
  /\ (forall fetch, Page.clickLocate engine fetch (pendingOf s) = pendingOf s)
  /\ PageView.statusText (pendingOf s) = "LOCATING..."
  /\ Page.errorBanner (pendingOf s) = None
  /\ (forall fetched,
        Page.locateDisabled (run (Page.handleSubmit_settle engine fetched) (pendingOf s))
        = false
        /\ PageView.statusText
             (run (Page.handleSubmit_settle engine fetched) (pendingOf s))
           = "IDLE").
Proof.
  intros Himg. split; [exact (handleSubmit_start_some s image Himg)|].
  split; [reflexivity|]. split; [reflexivity|].
  split; [reflexivity|]. split; [reflexivity|].
  intros fetched. unfold run.
  destruct (settle_page_cases engine fetched (pendingOf s))
    as [[m ->] | (st & data & _ & ->)];
    unfold Page.locateDisabled, PageView.statusText; cbn; now rewrite Himg.
Qed.

Lemma locate_disabled_while_pending_witness :
  Page.handleSubmit_start readyState = Some (queryRequest sampleFile, pendingOf readyState)
  /\ Page.locateDisabled (pendingOf readyState) = true
  /\ (forall fetch, Page.clickLocate sampleEngine fetch (pendingOf readyState)
                    = pendingOf readyState)
  /\ PageView.statusText (pendingOf readyState) = "LOCATING..."
  /\ Page.errorBanner (pendingOf readyState) = None
  /\ (forall fetched,
        Page.locateDisabled
          (run (Page.handleSubmit_settle sampleEngine fetched) (pendingOf readyState))
        = false
        /\ PageView.statusText
             (run (Page.handleSubmit_settle sampleEngine fetched) (pendingOf readyState))
           = "IDLE").
Proof.
  exact (locate_disabled_while_pending sampleEngine readyState sampleFile eq_refl).
Defined.

(** X7. A pending request is not cancelled when another image is chosen:
    if a new image is chosen while the request for the previous one is
    pending, and that request is then answered with a success, the answer
    is stored and its first result selected although the selected image
    and the preview are those of the new file. *)
Theorem late_response_overwrites
    (engine : Engine) (fetch : FetchRequest -> Exc Response)
    (s : State) (image file : File) (rest : list File) (e : ChangeEvent)
    (status : Z) (data : GeomatchResponse) :
  selectedImage s = Some image ->
  files e = Some (file :: rest) ->
  fetch (queryRequest image) = inr (Success status (inr data)) ->
  exists request pending,
    Page.handleSubmit_start s = Some (request, pending)
    /\ body request = [("image_file", image)]
    /\ let changed := run (Page.handleImageChange engine e) pending in
       let settled := run (Page.handleSubmit_settle engine (fetch request)) changed in
       apiResponse changed = None /\ isLoading changed = true
       /\ selectedImage settled = Some file
       /\ previewUrl settled = Some (createObjectURL engine file)
       /\ apiResponse settled = Some data
       /\ selectedResult settled = index (results data) 0
       /\ isLoading settled = false.
Proof.
  intros Himg Hfiles Hfetch.
  exists (queryRequest image), (pendingOf s).
  split; [exact (handleSubmit_start_some s image Himg)|].
  split; [reflexivity|].
  cbv zeta. rewrite Hfetch, settle_success_page.
  unfold Page.handleImageChange. rewrite (firstFile_present e file rest Hfiles).
  now repeat split.
Qed.

Lemma late_response_overwrites_witness :
  exists request pending,
    Page.handleSubmit_start readyState = Some (request, pending)
    /\ body request = [("image_file", sampleFile)]
    /\ let changed :=
         run (Page.handleImageChange sampleEngine {| files := Some [otherFile] |})
             pending in
       let settled :=
         run (Page.handleSubmit_settle sampleEngine
                ((fun _ => inr (Success 200%Z (inr sampleResponse))) request)) changed in
       apiResponse changed = None /\ isLoading changed = true
       /\ selectedImage settled = Some otherFile
       /\ previewUrl settled = Some (createObjectURL sampleEngine otherFile)
       /\ apiResponse settled = Some sampleResponse
       /\ selectedResult settled = index (results sampleResponse) 0
       /\ isLoading settled = false.
Proof.
  exact (late_response_overwrites sampleEngine
           (fun _ => inr (Success 200%Z (inr sampleResponse)))
           readyState sampleFile otherFile [] {| files := Some [otherFile] |}
           200%Z sampleResponse eq_refl eq_refl eq_refl).
Defined.

(** *** Further properties of the forwarder *)



(** X9. The two values the forwarder writes into the backend URL are never
    empty: an unset or empty [VPS_API_URL] gives the built-in address, and
    an absent or empty [top_k] gives 30. *)
Theorem forwarded_parts_never_empty (env : Env) (request : Route.Request) :
  Route.VPS_URL env <> ""
  /\ Route.topK request <> ""
  /\ (missing (VPS_API_URL env) = true ->
      Route.VPS_URL env = "http://46.224.67.64:1717")
  /\ (forall address, VPS_API_URL env = Some address -> address <> "" ->
      Route.VPS_URL env = address).
Proof.
  unfold Route.VPS_URL, Route.topK, orString, missing.
  repeat split.
  - destruct (VPS_API_URL env) as [[|c a]|]; discriminate.
  - destruct (Route.get (Route.searchParams request) "top_k") as [[|c v]|]; discriminate.
  - destruct (VPS_API_URL env) as [[|c a]|]; try reflexivity. discriminate.
  - intros address -> Hne. now destruct address.
Qed.

Lemma forwarded_parts_never_empty_witness :
  Route.VPS_URL {| VPS_API_URL := Some "";
                   NEXT_PUBLIC_GOOGLE_MAPS_KEY := None;
                   NEXT_PUBLIC_MAPBOX_TOKEN := None |}
  = "http://46.224.67.64:1717".
Proof.
  exact (proj1 (proj2 (proj2
    (forwarded_parts_never_empty
       {| VPS_API_URL := Some "";
          NEXT_PUBLIC_GOOGLE_MAPS_KEY := None;
          NEXT_PUBLIC_MAPBOX_TOKEN := None |} (uploadRequest [])))) eq_refl).
Defined.

(** *** Further properties of the panorama identifier *)

(** X10. [formatPanoId] only ever removes a tail: its result is a prefix
    of the input, and what is removed is nothing or one underscore-digit
    pair. In particular only the last of several such pairs is removed,
    so that applying it again can remove another. *)
Theorem formatPanoId_removes_a_tail (rawId : string) :
  (exists tail,
     rawId = Page.formatPanoId rawId ++ tail
     /\ (tail = "" \/ exists d, isDigit d = true /\ tail = panoSuffix d))
  /\ (forall p d1 d2, isDigit d1 = true -> isDigit d2 = true ->
        rawId = p ++ panoSuffix d1 ++ panoSuffix d2 ->
        Page.formatPanoId rawId = p ++ panoSuffix d1
        /\ Page.formatPanoId (Page.formatPanoId rawId) = p).
Proof.
  split.
  - change (Page.formatPanoId rawId) with (replace panoPattern "" rawId).
    destruct (exec panoPattern rawId) as [[i n]|] eqn:E.
    + destruct (exec_inv rawId i n E) as (p & d & Hd & ->).
      exists (panoSuffix d). rewrite (replace_suffix p d Hd).
      split; [reflexivity|]. right. now exists d.
    + exists "". unfold replace. rewrite E, append_empty_r. split; [reflexivity|now left].
  - intros p d1 d2 H1 H2 E.
    assert (A : p ++ panoSuffix d1 ++ panoSuffix d2 = (p ++ panoSuffix d1) ++ panoSuffix d2).
    { clear. induction p as [|c p IH]; [reflexivity|].
      cbn [append]. now rewrite IH. }
    rewrite A in E. subst rawId.
    change Page.formatPanoId with (replace panoPattern "").
    rewrite (replace_suffix (p ++ panoSuffix d1) d2 H2).
    split; [reflexivity|]. exact (replace_suffix p d1 H1).
Qed.

Lemma formatPanoId_removes_a_tail_witness :
  Page.formatPanoId "pano_1_2" = "pano_1"
  /\ Page.formatPanoId (Page.formatPanoId "pano_1_2") = "pano".
Proof.
  exact (proj2 (formatPanoId_removes_a_tail "pano_1_2")
           "pano" "1"%char "2"%char eq_refl eq_refl eq_refl).
Defined.

(** *** Selecting a result, and what is drawn for it *)

(** X11. A click on a result row or on a marker makes that result the one
    selected result and touches no other cell. On the map, with the map
    mounted, the effect then flies to that result's longitude and
    latitude (zoom 18, pitch 30, bearing 0, over 2000 ms); without a
    mounted map, and in the panorama view, the effect does nothing. *)
Theorem selectResult_targets (s : State) (result : GeomatchResult) :
  let s' := run (Page.selectResult result) s in
  (selection s' = [result]
   /\ apiResponse s' = apiResponse s /\ selectedImage s' = selectedImage s
   /\ previewUrl s' = previewUrl s /\ isLoading s' = isLoading s
   /\ errorMsg s' = errorMsg s /\ viewMode s' = viewMode s)
  /\ (viewMode s = map ->
      PageView.flyToEffect true s'
      = Some {| PageView.center := (longitude result, latitude result);
                PageView.zoom := 18%float; PageView.pitch := 30%float;
                PageView.bearing := 0%float; PageView.duration := 2000%float |}
      /\ PageView.flyToEffect false s' = None)
  /\ (viewMode s = streetview -> forall mounted, PageView.flyToEffect mounted s' = None).
Proof.
  cbv zeta. split; [now repeat split|]. split.
  - intros Hmode. unfold PageView.flyToEffect. cbn. now rewrite Hmode.
  - intros Hmode mounted. unfold PageView.flyToEffect. cbn. now rewrite Hmode.
Qed.

Lemma selectResult_targets_witness :
  PageView.flyToEffect true (run (Page.selectResult secondResult) mapState)
  = Some {| PageView.center := (16.375%float, 48.25%float);
            PageView.zoom := 18%float; PageView.pitch := 30%float;
            PageView.bearing := 0%float; PageView.duration := 2000%float |}
  /\ PageView.flyToEffect false (run (Page.selectResult secondResult) mapState) = None.
Proof.
  exact (proj1 (proj2 (selectResult_targets mapState secondResult)) eq_refl).
Defined.

(** X12. In the panorama view, with a key and a selected result whose id
    ends in an underscore and a digit, the frame both revisions render
    asks for the id without that suffix: the suffix never reaches the
    embed URL. *)
Theorem streetview_frame_strips_suffix
    (env : Env) (s : State) (selected : GeomatchResult)
    (key p : string) (d : ascii) :
  viewMode s = streetview ->
  selectedResult s = Value selected ->
  NEXT_PUBLIC_GOOGLE_MAPS_KEY env = Some key ->
  key <> "" ->
  isDigit d = true ->
  id selected = p ++ panoSuffix d ->
  Page.leftPane env s
  = [Page.ViewToggle streetview; Page.StreetviewFrame (embedUrl key p)]
  /\ Part000.leftPane env s = Part000.StreetviewFrame (embedUrl key p).
Proof.
  intros Hmode Hsel Hkey Hne Hd Hid.
  unfold Page.leftPane, Part000.leftPane. rewrite Hmode, Hsel, Hkey.
  assert (Ht : truthyString key = true) by (destruct key; [now elim Hne | reflexivity]).
  rewrite Ht. cbn [truthy negb app].
  change (Page.formatPanoId (id selected)) with (replace panoPattern "" (id selected)).
  change (Part000.formatPanoId (id selected)) with (replace panoPattern "" (id selected)).
  rewrite Hid, (replace_suffix p d Hd). now split.
Qed.

Lemma streetview_frame_strips_suffix_witness :
  Page.leftPane envWithoutMapboxToken answeredState
  = [Page.ViewToggle streetview;
     Page.StreetviewFrame (embedUrl "AIza-sample" "CAoSLEFGMVFpcE1fX2")]
  /\ Part000.leftPane envWithoutMapboxToken answeredState
     = Part000.StreetviewFrame (embedUrl "AIza-sample" "CAoSLEFGMVFpcE1fX2").
Proof.
  refine (streetview_frame_strips_suffix envWithoutMapboxToken answeredState
            sampleResult "AIza-sample" "CAoSLEFGMVFpcE1fX2" "3"%char
            eq_refl eq_refl eq_refl _ eq_refl eq_refl).
  discriminate.
Defined.

Section Highlight.

Lemma filter_map_comm {A B : Type} (f : B -> bool) (g : A -> B) (l : list A) :
  filter f (List.map g l) = List.map g (filter (fun x => f (g x)) l).
Proof.
  induction l as [|a l IH]; cbn; [reflexivity|].
  destruct (f (g a)); cbn; now rewrite IH.
Qed.

(** No result of a list is drawn as selected when its id is not among the
    ids of the list. *)
Lemma highlighted_none (selected : GeomatchResult) (l : list GeomatchResult) :
  ~ In (id selected) (List.map id l) -> highlighted (Value selected) l = [].
Proof.
  unfold highlighted. induction l as [|x l IH]; cbn; [reflexivity|].
  intros Hnot. destruct (String.eqb_spec (id selected) (id x)) as [E|_].
  - elim Hnot. left. now symmetry.
  - apply IH. intros H. apply Hnot. now right.
Qed.

(** With ids that differ, the selected result is the only one drawn as
    selected. *)
Lemma highlighted_unique (selected : GeomatchResult) (l : list GeomatchResult) :
  NoDup (List.map id l) -> In selected l -> highlighted (Value selected) l = [selected].
Proof.
  unfold highlighted. induction l as [|x l IH]; cbn; [now intros _ []|].
  intros Hnodup Hin. inversion Hnodup as [|? ? Hx Hl]; subst.
  destruct Hin as [-> | Hin].
  - rewrite String.eqb_refl. f_equal. now apply highlighted_none.
  - destruct (String.eqb_spec (id selected) (id x)) as [E|_].
    + elim Hx. rewrite <- E. now apply in_map.
    + now apply IH.
Qed.

End Highlight.

(** X13. The result list has one row per stored result, in the order of
    the response, and the map one marker per result. Without a selection
    no row and no marker is drawn as selected. With a selected result
    that is in the stored results, whose ids all differ, exactly one row
    and exactly one marker are drawn as selected: those of that result. *)
Theorem one_row_highlighted
    (toFixed : number -> nat -> string) (env : Env) (s : State)
    (response : GeomatchResponse) :
  apiResponse s = Some response ->
  exists rows,
    PageView.resultsList toFixed s = Some rows
    /\ List.map PageView.row_key rows = List.map id (results response)
    /\ List.map Page.marker_key (Page.markers (Page.mapView env s))
       = List.map id (results response)
    /\ (truthy (selectedResult s) = false ->
        filter PageView.row_selected rows = []
        /\ filter Page.marker_highlighted (Page.markers (Page.mapView env s)) = [])
    /\ (forall selected,
          selectedResult s = Value selected ->
          In selected (results response) ->
          NoDup (List.map id (results response)) ->
          List.map PageView.row_key (filter PageView.row_selected rows) = [id selected]
          /\ List.map Page.marker_key
               (filter Page.marker_highlighted (Page.markers (Page.mapView env s)))
             = [id selected]).
Proof.
  intros Hresp. unfold PageView.resultsList, Page.mapView. rewrite Hresp.
  eexists. split; [reflexivity|]. cbn [Page.markers].
  split; [now rewrite map_map|]. split; [now rewrite map_map|].
  rewrite !filter_map_comm. cbn [PageView.row_selected PageView.rowView
                                  Page.marker_highlighted].
  split.
  - intros Hsel.
    assert (E : forall l, filter (fun x => Page.isSelected (selectedResult s) x) l = []).
    { intros l. destruct (selectedResult s); try discriminate;
        induction l; cbn; auto. }
    now rewrite !E.
  - intros selected Hsel Hin Hnodup. rewrite Hsel.
    change (filter (fun x => Page.isSelected (Value selected) x) (results response))
      with (highlighted (Value selected) (results response)).
    rewrite (highlighted_unique selected (results response) Hnodup Hin).
    now split.
Qed.

Lemma one_row_highlighted_witness :
  exists rows,
    PageView.resultsList sampleToFixed mapState = Some rows
    /\ List.map PageView.row_key rows = List.map id (results sampleResponse)
    /\ List.map Page.marker_key (Page.markers (Page.mapView envWithoutMapboxToken mapState))
       = List.map id (results sampleResponse)
    /\ (truthy (selectedResult mapState) = false ->
        filter PageView.row_selected rows = []
        /\ filter Page.marker_highlighted
             (Page.markers (Page.mapView envWithoutMapboxToken mapState)) = [])
    /\ (forall selected,
          selectedResult mapState = Value selected ->
          In selected (results sampleResponse) ->
          NoDup (List.map id (results sampleResponse)) ->
          List.map PageView.row_key (filter PageView.row_selected rows) = [id selected]
          /\ List.map Page.marker_key
               (filter Page.marker_highlighted
                  (Page.markers (Page.mapView envWithoutMapboxToken mapState)))
             = [id selected]).
Proof.
  exact (one_row_highlighted sampleToFixed envWithoutMapboxToken mapState
           sampleResponse eq_refl).
Defined.

(** *** The left pane of [part_000], and what an empty answer draws *)

(** X14. The left pane of [part_000] tests the key before the selection:
    it shows the missing-key error exactly when the Google Maps key is
    unset or empty, with or without a selected result; with a key it
    shows the fallback text when nothing is selected and the panorama
    frame of the selected result otherwise. *)
Theorem part000_leftPane_cases (env : Env) (s : State) :
  (Part000.leftPane env s = Part000.MissingGoogleMapsKey
   <-> missing (NEXT_PUBLIC_GOOGLE_MAPS_KEY env) = true)
  /\ (forall key, NEXT_PUBLIC_GOOGLE_MAPS_KEY env = Some key -> key <> "" ->
        (truthy (selectedResult s) = false ->
           Part000.leftPane env s = Part000.AwaitingTargetCoordinates)
        /\ (forall selected, selectedResult s = Value selected ->
              Part000.leftPane env s
              = Part000.StreetviewFrame
                  (embedUrl key (Part000.formatPanoId (id selected))))).
Proof.
  split.
  - split; [|apply part000_missing_key].
    unfold Part000.leftPane, missing.
    destruct (NEXT_PUBLIC_GOOGLE_MAPS_KEY env) as [key|]; [|reflexivity].
    destruct (truthyString key); [|reflexivity].
    destruct (selectedResult s); discriminate.
  - intros key Hkey Hne. unfold Part000.leftPane. rewrite Hkey.
    assert (Ht : truthyString key = true) by (destruct key; [now elim Hne | reflexivity]).
    rewrite Ht. cbn [negb]. split.
    + destruct (selectedResult s); try reflexivity. discriminate.
    + now intros selected ->.
Qed.

Lemma part000_leftPane_cases_witness :
  Part000.leftPane envWithoutGoogleKey readyState = Part000.MissingGoogleMapsKey
  /\ Part000.leftPane envWithoutMapboxToken readyState = Part000.AwaitingTargetCoordinates.
Proof.
  split.
  - exact (proj2 (proj1 (part000_leftPane_cases envWithoutGoogleKey readyState)) eq_refl).
  - refine (proj1 (proj2 (part000_leftPane_cases envWithoutMapboxToken readyState)
                     "AIza-sample" eq_refl _) eq_refl).
    discriminate.
Defined.

(** X15. After a success whose results list is empty, [page.tsx] draws the
    result list as an empty list, not as the [NO DATA] placeholder; the
    left pane shows the fallback text and no panorama frame; the map, if
    shown, is dimmed, has no marker, and the fly-to effect does nothing. *)
Theorem empty_answer_rendering
    (engine : Engine) (toFixed : number -> nat -> string) (env : Env)
    (fetch : FetchRequest -> Exc Response)
    (s : State) (image : File) (status : Z) (data : GeomatchResponse) :
  selectedImage s = Some image ->
  fetch (queryRequest image) = inr (Success status (inr data)) ->
  results data = [] ->
  let s' := Page.handleSubmit engine fetch s in
  PageView.resultsList toFixed s' = Some []
  /\ Page.leftPane env s'
     = ([Page.ViewToggle (viewMode s); Page.AwaitingTargetCoordinates]
        ++ match viewMode s with
           | map => [Page.MapboxMap (Page.mapView env s')]
           | streetview => []
           end)%list
  /\ Page.markers (Page.mapView env s') = []
  /\ Page.dimmed (Page.mapView env s') = true
  /\ (forall mounted, PageView.flyToEffect mounted s' = None).
Proof.
  intros Himg Hfetch Hempty s'. subst s'.
  rewrite (handleSubmit_page_eq engine fetch s image Himg).
  rewrite Hfetch, settle_success_page, start_is_pendingOf.
  unfold PageView.resultsList, Page.leftPane, Page.mapView, PageView.flyToEffect,
    pendingOf.
  cbn [apiResponse selectedResult viewMode Page.markers Page.dimmed].
  rewrite Hempty. cbn [index nth_error truthy negb List.map app].
  repeat split; try reflexivity.
  - now destruct (viewMode s).
  - intros mounted. now destruct (viewMode s).
Qed.

Lemma empty_answer_rendering_witness :
  let s' := Page.handleSubmit sampleEngine
              (fun _ => inr (Success 200%Z (inr emptyResponse))) readyState in
  PageView.resultsList sampleToFixed s' = Some []
  /\ Page.leftPane envWithoutMapboxToken s'
     = ([Page.ViewToggle (viewMode readyState); Page.AwaitingTargetCoordinates]
        ++ match viewMode readyState with
           | map => [Page.MapboxMap (Page.mapView envWithoutMapboxToken s')]
           | streetview => []
           end)%list
  /\ Page.markers (Page.mapView envWithoutMapboxToken s') = []
  /\ Page.dimmed (Page.mapView envWithoutMapboxToken s') = true
  /\ (forall mounted, PageView.flyToEffect mounted s' = None).
Proof.
  exact (empty_answer_rendering sampleEngine sampleToFixed envWithoutMapboxToken
           (fun _ => inr (Success 200%Z (inr emptyResponse)))
           readyState sampleFile 200%Z emptyResponse eq_refl eq_refl eq_refl).
Defined.

(** X16. In [part_000] a success whose results list is empty replaces the
    stored results and leaves the selection alone: a result selected
    before the submission stays selected, the left pane keeps showing
    what it showed, and the result list is drawn empty, so that the
    selected result is no longer among the stored ones. *)
Theorem part000_empty_answer_keeps_selection
    (engine : Engine) (toFixed : number -> nat -> string) (env : Env)
    (fetch : FetchRequest -> Exc Response)
    (s : State) (image : File) (status : Z) (data : GeomatchResponse) :
  selectedImage s = Some image ->
  fetch (queryRequest image) = inr (Success status (inr data)) ->
  results data = [] ->
  let s' := Part000.handleSubmit engine fetch s in
  apiResponse s' = Some data
  /\ selectedResult s' = selectedResult s
  /\ Part000.leftPane env s' = Part000.leftPane env s
  /\ PageView.resultsList toFixed s' = Some []
  /\ (forall selected, selectedResult s = Value selected ->
        selection s' = [selected] /\ ~ In selected (results data)).
Proof.
  intros Himg Hfetch Hempty s'. subst s'.
  rewrite (handleSubmit_part000_eq engine fetch s image Himg).
  rewrite Hfetch, settle_success_part000, start_is_pendingOf.
  unfold PageView.resultsList, Part000.leftPane, selection, pendingOf.
  cbn [apiResponse selectedResult]. rewrite Hempty. cbn [List.map].
  split; [reflexivity|]. split; [reflexivity|]. split; [reflexivity|].
  split; [reflexivity|]. intros selected ->. split; [reflexivity|]. intros [].
Qed.

Lemma part000_empty_answer_keeps_selection_witness :
  let s' := Part000.handleSubmit sampleEngine
              (fun _ => inr (Success 200%Z (inr emptyResponse))) answeredState in
  apiResponse s' = Some emptyResponse
  /\ selectedResult s' = selectedResult answeredState
  /\ Part000.leftPane envWithoutMapboxToken s'
     = Part000.leftPane envWithoutMapboxToken answeredState
  /\ PageView.resultsList sampleToFixed s' = Some []
  /\ (forall selected, selectedResult answeredState = Value selected ->
        selection s' = [selected] /\ ~ In selected (results emptyResponse)).
Proof.
  exact (part000_empty_answer_keeps_selection sampleEngine sampleToFixed
           envWithoutMapboxToken
           (fun _ => inr (Success 200%Z (inr emptyResponse)))
           answeredState sampleFile 200%Z emptyResponse eq_refl eq_refl eq_refl).
Defined.

(** X17. What is drawn once an image was chosen: the result list is the
    [NO DATA] placeholder, no error is shown, the upload label shows the
    object URL of the new file (the placeholder text if that URL is
    empty), the map has no marker and the fly-to effect does nothing, the
    panorama view shows the fallback text, and the Locate button is
    enabled unless a request is still pending. *)
Theorem image_change_rendering
    (engine : Engine) (toFixed : number -> nat -> string) (env : Env)
    (e : ChangeEvent) (file : File) (rest : list File) (s : State) :
  files e = Some (file :: rest) ->
  let s' := run (Page.handleImageChange engine e) s in
  PageView.resultsList toFixed s' = None
  /\ Page.errorBanner s' = None
  /\ PageView.preview s'
     = (if truthyString (createObjectURL engine file)
        then PageView.TargetImage (createObjectURL engine file)
        else PageView.UploadPlaceholder)
  /\ Page.markers (Page.mapView env s') = []
  /\ (forall mounted, PageView.flyToEffect mounted s' = None)
  /\ (viewMode s = streetview ->
      Page.leftPane env s'
      = [Page.ViewToggle streetview; Page.AwaitingTargetCoordinates])
  /\ Page.locateDisabled s' = isLoading s.
Proof.
  intros Hfiles s'. subst s'.
  unfold Page.handleImageChange. rewrite (firstFile_present e file rest Hfiles).
  unfold run, bind, setSelectedImage, setPreviewUrl, setApiResponse,
    setSelectedResult, setErrorMsg.
  cbn [snd fst].
  unfold PageView.resultsList, Page.errorBanner, PageView.preview, Page.mapView,
    PageView.flyToEffect, Page.leftPane, Page.locateDisabled.
  cbn [apiResponse errorMsg previewUrl selectedResult viewMode isLoading
       selectedImage Page.markers truthy negb].
  split; [reflexivity|]. split; [reflexivity|]. split; [reflexivity|].
  split; [reflexivity|]. split; [intros mounted; now destruct (viewMode s)|].
  split; [now intros ->|]. now destruct (isLoading s).
Qed.

Lemma image_change_rendering_witness :
  let s' := run (Page.handleImageChange sampleEngine {| files := Some [otherFile] |})
                answeredState in
  PageView.resultsList sampleToFixed s' = None
  /\ Page.errorBanner s' = None
  /\ PageView.preview s'
     = (if truthyString (createObjectURL sampleEngine otherFile)
        then PageView.TargetImage (createObjectURL sampleEngine otherFile)
        else PageView.UploadPlaceholder)
  /\ Page.markers (Page.mapView envWithoutMapboxToken s') = []
  /\ (forall mounted, PageView.flyToEffect mounted s' = None)
  /\ (viewMode answeredState = streetview ->
      Page.leftPane envWithoutMapboxToken s'
      = [Page.ViewToggle streetview; Page.AwaitingTargetCoordinates])
  /\ Page.locateDisabled s' = isLoading answeredState.
Proof.
  exact (image_change_rendering sampleEngine sampleToFixed envWithoutMapboxToken
           {| files := Some [otherFile] |} otherFile [] answeredState eq_refl).
Defined.
